(** * SuperPanel native library: a model of [SystemMonitor.cpp]

    The development embeds the POSIX branch ([#else] of [#ifdef _WIN32]) of
    [src/NativeLibrary/SystemMonitor.cpp], and the [_WIN32] branch of
    [ListDirectory], [GetProcessCount] and [GetTopProcesses].  The operating system is an
    explicit argument (record [Host]); the function-local and file-scope
    [static] variables are an explicit record ([Statics]) threaded through
    the calls; output parameters ([long long*], arrays) are passed in and
    returned.

    - [unsigned long long] is a [Z] reduced modulo [2^64], [long long] a [Z]
      reduced to the two's complement range, [int] likewise on 32 bits;
    - [double] is IEEE-754 binary64, round to nearest even, as specified by
      [SpecFloat] (precision 53, [emax] 1024);
    - [fscanf]/[sscanf] are modelled on the characters of the input for the
      two format strings the file uses. *)

From Stdlib Require Import ZArith Lia Bool Ascii String List Permutation.
From Stdlib Require Import Floats.SpecFloat.
From stdpp Require Import base list.
From Equations Require Import Equations.
Import ListNotations.

Local Open Scope Z_scope.

(** ** Machine integers *)

Module CTypes.

Definition ULLONG_MAX : Z := 2 ^ 64 - 1.
Definition LLONG_MAX : Z := 2 ^ 63 - 1.
Definition LLONG_MIN : Z := - 2 ^ 63.
Definition LONG_MAX : Z := 2 ^ 63 - 1.

(** Reduction of a mathematical integer to [unsigned long long]. *)
Definition u64 (z : Z) : Z := z mod 2 ^ 64.

(** Reduction to [long long] (two's complement, what the compiled
    code computes on overflow). *)
Definition s64 (z : Z) : Z := (z + 2 ^ 63) mod 2 ^ 64 - 2 ^ 63.

(** Reduction to [int]. *)
Definition s32 (z : Z) : Z := (z + 2 ^ 31) mod 2 ^ 32 - 2 ^ 31.

(** Reduction to [uint16_t], and [htons] on a little-endian host. *)
Definition u16 (z : Z) : Z := z mod 2 ^ 16.
Definition htons (z : Z) : Z :=
  Z.lor (Z.shiftl (Z.land z 255) 8) (Z.land (Z.shiftr z 8) 255).

End CTypes.

(** ** Doubles *)

Module Double.

Definition prec : Z := 53.
Definition emax : Z := 1024.

Definition double := spec_float.

(** [0.0] *)
Definition zero : double := S754_zero false.

(** Conversion of an [unsigned long long] to [double]. *)
Definition of_u64 (n : Z) : double := binary_normalize prec emax n 0 false.

(** The literal [100.0]. *)
Definition hundred : double := S754_finite false 7036874417766400 (-46).

Definition mul : double -> double -> double := SFmul prec emax.
Definition div : double -> double -> double := SFdiv prec emax.
Definition ltb : double -> double -> bool := SFltb.
Definition leb : double -> double -> bool := SFleb.

(** [x] is not a number with the sign [negb s]: it is NaN or carries the
    sign [s]. *)
Definition has_sign (s : bool) (x : double) : Prop :=
  match x with
  | S754_nan => True
  | S754_zero s' | S754_infinity s' | S754_finite s' _ _ => s' = s
  end.

(** A mantissa none of whose digits has been shifted out. *)
Definition exact_record (m : Z) : shr_record :=
  {| shr_m := m; shr_r := false; shr_s := false |}.

(** The canonical mantissa and exponent of a positive integer below
    [2^53]. *)
Definition mantissa (n : Z) : Z := n * 2 ^ (53 - Zdigits2 n).
Definition exponent (n : Z) : Z := Zdigits2 n - 53.

(** [1] when digits were lost, [0] when the mantissa is the exact value. *)
Definition loc_excess (l : location) : Z :=
  match l with loc_Exact => 0 | loc_Inexact _ => 1 end.

(** The second half of [binary_round_aux]: the mantissa after rounding is
    brought back to 53 bits. *)
Definition renormalize (s : bool) (m e : Z) : spec_float :=
  let '(mrs, e') := shr_fexp prec emax m e loc_Exact in
  match shr_m mrs with
  | Z0 => S754_zero s
  | Zpos p => if e' <=? emax - prec then S754_finite s p e' else S754_infinity s
  | Zneg _ => S754_nan
  end.

End Double.

(** ** Formatted input *)

Module Scanf.
Import CTypes.

Definition isspace (c : ascii) : bool :=
  let n := Z.of_nat (nat_of_ascii c) in
  (n =? 32) || ((9 <=? n) && (n <=? 13)).

Definition isdigit (c : ascii) : bool :=
  let n := Z.of_nat (nat_of_ascii c) in
  (48 <=? n) && (n <=? 57).

Definition digit_value (c : ascii) : Z := Z.of_nat (nat_of_ascii c) - 48.

(** A white-space directive, and the white space every numeric
    conversion skips first. *)
Fixpoint skip_space (s : string) : string :=
  match s with
  | String c s' => if isspace c then skip_space s' else s
  | EmptyString => s
  end.

Fixpoint scan_digits (acc : Z) (s : string) : Z * string :=
  match s with
  | String c s' =>
      if isdigit c then scan_digits (10 * acc + digit_value c) s' else (acc, s)
  | EmptyString => (acc, s)
  end.

(** The input part of [%d], [%lld] and [%llu]: white space, an optional
    sign, one or more decimal digits.  [None] is a matching or input
    failure; otherwise the sign, the magnitude and the unread input. *)
Definition scan_decimal (s : string) : option (bool * Z * string) :=
  let s1 := skip_space s in
  let '(neg, s2) :=
    match s1 with
    | String "-"%char r => (true, r)
    | String "+"%char r => (false, r)
    | _ => (false, s1)
    end in
  match s2 with
  | String c _ =>
      if isdigit c
      then let '(m, r) := scan_digits 0 s2 in Some (neg, m, r)
      else None
  | EmptyString => None
  end.

(** What [%lld] stores: the value, saturated as [strtoll] does. *)
Definition to_long_long (neg : bool) (m : Z) : Z :=
  if neg then Z.max (- m) LLONG_MIN else Z.min m LLONG_MAX.

(** What [%llu] stores: [strtoull] saturates the magnitude and negates
    modulo [2^64]. *)
Definition to_unsigned_long_long (neg : bool) (m : Z) : Z :=
  if ULLONG_MAX <? m then ULLONG_MAX
  else if neg then u64 (- m) else m.

(** Ordinary characters of a format: they must be the next input. *)
Fixpoint match_literal (lit s : string) : option string :=
  match lit with
  | EmptyString => Some s
  | String c lit' =>
      match s with
      | String d s' => if Ascii.eqb c d then match_literal lit' s' else None
      | EmptyString => None
      end
  end.

(** [%N[^:]]: at most [width] characters other than [':'], at least
    one; no white space is skipped. *)
Fixpoint scan_not_colon (width : nat) (s : string) : string * string :=
  match width, s with
  | S w, String c s' =>
      if Ascii.eqb c ":"%char then (EmptyString, s)
      else let '(tok, r) := scan_not_colon w s' in (String c tok, r)
  | _, _ => (EmptyString, s)
  end.

(** A C string ends at its first NUL. *)
Fixpoint c_str (s : string) : string :=
  match s with
  | String c s' => if Ascii.eqb c Ascii.zero then EmptyString else String c (c_str s')
  | EmptyString => EmptyString
  end.

(** [fgets(buf, size, file)]: [None] at end of file, otherwise the
    characters up to and including the first newline, at most
    [size - 1] of them, and the rest of the stream. *)
Fixpoint fgets_chars (room : nat) (s : string) : string * string :=
  match room, s with
  | S room', String c s' =>
      if Ascii.eqb c "010"%char then (String c EmptyString, s')
      else let '(l, r) := fgets_chars room' s' in (String c l, r)
  | _, _ => (EmptyString, s)
  end.

Definition fgets (size : nat) (s : string) : option (string * string) :=
  match s with
  | EmptyString => None
  | _ => Some (fgets_chars (Nat.pred size) s)
  end.

(** [strcmp(a, b) == 0] *)
Definition strcmp_eq (a b : string) : bool := String.eqb a b.

End Scanf.

(** ** The host

    What the operating system answers at the time of a call. *)

Record dirent := { d_type : Z; d_name : string }.

Record statvfs_t := { f_blocks : Z; f_frsize : Z; f_bavail : Z }.

Record sockaddr_in := { sin_family : Z; sin_port : Z; sin_addr : Z }.

Record Host := {
  (** [fopen(path, "r")]: the content of the file, or [None] for [NULL]. *)
  fopen : string -> option string;
  (** [opendir(path)] and the entries its [readdir] calls return in turn. *)
  opendir : string -> option (list dirent);
  (** [statvfs(path, &stat)]: the structure on success ([0]), [None] on
      failure ([-1]). *)
  statvfs : string -> option statvfs_t;
  (** [socket(domain, type, protocol)]: a descriptor, or a negative value. *)
  socket : Z -> Z -> Z -> Z;
  (** [inet_pton(af, src, dst)]: the address stored in [dst], if any. *)
  inet_pton : Z -> string -> option Z;
  (** [connect(sock, &address, len)]: [0] on success, [-1] otherwise. *)
  connect : Z -> sockaddr_in -> Z
}.

(** ** SystemMonitor.cpp *)

Module SystemMonitor.
Import CTypes Scanf.

Definition DT_DIR : Z := 4.
Definition AF_INET : Z := 2.
Definition SOCK_STREAM : Z := 1.

(** The four locals [totalUser], [totalUserLow], [totalSys], [totalIdle]
    of [GetCpuUsage]. *)
Record CpuTimes := {
  totalUser : Z;
  totalUserLow : Z;
  totalSys : Z;
  totalIdle : Z
}.

(** The variables of static storage duration: [perfCountersInitialized]
    at file scope and the four function-local statics of [GetCpuUsage]
    ([cpuQuery] and [cpuTotal] are only used under [_WIN32]). *)
Record Statics := {
  perfCountersInitialized : bool;
  lastTotalUser : Z;
  lastTotalUserLow : Z;
  lastTotalSys : Z;
  lastTotalIdle : Z
}.

(** The statics when the process starts. *)
Definition process_start : Statics :=
  {| perfCountersInitialized := false;
     lastTotalUser := 0; lastTotalUserLow := 0;
     lastTotalSys := 0; lastTotalIdle := 0 |}.

Definition InitializePerfCounters (st : Statics) : Statics :=
  if negb (perfCountersInitialized st)
  then {| perfCountersInitialized := true;
          lastTotalUser := lastTotalUser st;
          lastTotalUserLow := lastTotalUserLow st;
          lastTotalSys := lastTotalSys st;
          lastTotalIdle := lastTotalIdle st |}
  else st.

(** One [%llu] conversion. *)
Definition scan_llu (s : string) : option (Z * string) :=
  match scan_decimal s with
  | Some (neg, m, r) => Some (to_unsigned_long_long neg m, r)
  | None => None
  end.

(** One [%lld] conversion. *)
Definition scan_lld (s : string) : option (Z * string) :=
  match scan_decimal s with
  | Some (neg, m, r) => Some (to_long_long neg m, r)
  | None => None
  end.

(** [fscanf(file, "cpu %llu %llu %llu %llu", &totalUser, &totalUserLow,
    &totalSys, &totalIdle)].  The return value is not looked at; the
    locals are not initialised, so [locals] is whatever they held, and a
    conversion that does not happen leaves its local as it was. *)
Definition fscanf_cpu (input : string) (locals : CpuTimes) : CpuTimes :=
  match match_literal "cpu" input with
  | None => locals
  | Some s0 =>
    match scan_llu (skip_space s0) with
    | None => locals
    | Some (user, s1) =>
      let l1 := {| totalUser := user; totalUserLow := totalUserLow locals;
                   totalSys := totalSys locals; totalIdle := totalIdle locals |} in
      match scan_llu (skip_space s1) with
      | None => l1
      | Some (low, s2) =>
        let l2 := {| totalUser := user; totalUserLow := low;
                     totalSys := totalSys locals; totalIdle := totalIdle locals |} in
        match scan_llu (skip_space s2) with
        | None => l2
        | Some (sys, s3) =>
          let l3 := {| totalUser := user; totalUserLow := low;
                       totalSys := sys; totalIdle := totalIdle locals |} in
          match scan_llu (skip_space s3) with
          | None => l3
          | Some (idle, _) =>
              {| totalUser := user; totalUserLow := low;
                 totalSys := sys; totalIdle := idle |}
          end
        end
      end
    end
  end.

(** The four assignments [lastTotalUser = totalUser; ...]. *)
Definition store_last (st : Statics) (t : CpuTimes) : Statics :=
  {| perfCountersInitialized := perfCountersInitialized st;
     lastTotalUser := totalUser t;
     lastTotalUserLow := totalUserLow t;
     lastTotalSys := totalSys t;
     lastTotalIdle := totalIdle t |}.

(** [total = (totalUser - lastTotalUser) + (totalUserLow - lastTotalUserLow)
            + (totalSys - lastTotalSys)] in [unsigned long long]. *)
Definition total (st : Statics) (t : CpuTimes) : Z :=
  u64 (u64 (u64 (totalUser t - lastTotalUser st)
            + u64 (totalUserLow t - lastTotalUserLow st))
       + u64 (totalSys t - lastTotalSys st)).

(** [total + (totalIdle - lastTotalIdle)] in [unsigned long long]. *)
Definition all_ticks (st : Statics) (t : CpuTimes) : Z :=
  u64 (total st t + u64 (totalIdle t - lastTotalIdle st)).

(** [total * 100.0 / (total + (totalIdle - lastTotalIdle))] *)
Definition percent_of (st : Statics) (t : CpuTimes) : Double.double :=
  Double.div (Double.mul (Double.of_u64 (total st t)) Double.hundred)
             (Double.of_u64 (all_ticks st t)).

(** [double GetCpuUsage()].  [locals] is the indeterminate initial
    content of the four uninitialised locals. *)
Definition GetCpuUsage (h : Host) (locals : CpuTimes) (st : Statics)
  : Statics * Double.double :=
  let st := InitializePerfCounters st in
  match fopen h "/proc/stat" with
  | None => (st, Double.zero)
  | Some file =>
      let t := fscanf_cpu file locals in
      if lastTotalUser st =? 0
      then (store_last st t, Double.zero)
      else
        let percent := percent_of st t in
        (store_last st t, percent)
  end.


(** *** GetNetworkStats *)

(** What [sscanf] leaves behind: its return value and the three
    variables.  A variable that was not assigned is indeterminate in C;
    the caller reads the variables only when the return value is [3], so
    the model leaves the empty string or [0] there. *)
Record netdev_scan := {
  assigned : Z;
  interface : string;
  rx_bytes : Z;
  tx_bytes : Z
}.

(** [n] suppressed conversions [%*d]. *)
Fixpoint skip_decimals (n : nat) (s : string) : option string :=
  match n with
  | O => Some s
  | S n' =>
      match scan_decimal s with
      | Some (_, _, r) => skip_decimals n' r
      | None => None
      end
  end.

(** [sscanf(line, "%31[^:]: %lld %*d %*d %*d %*d %*d %*d %*d %lld",
    interface, &rx_bytes, &tx_bytes)] *)
Definition sscanf_netdev (line : string) : netdev_scan :=
  match line with
  | EmptyString =>
      {| assigned := -1; interface := EmptyString; rx_bytes := 0; tx_bytes := 0 |}
  | _ =>
    let '(name, s0) := scan_not_colon 31 line in
    match name with
    | EmptyString =>
        {| assigned := 0; interface := EmptyString; rx_bytes := 0; tx_bytes := 0 |}
    | _ =>
      match match_literal ":" s0 with
      | None => {| assigned := 1; interface := name; rx_bytes := 0; tx_bytes := 0 |}
      | Some s1 =>
        match scan_lld (skip_space s1) with
        | None => {| assigned := 1; interface := name; rx_bytes := 0; tx_bytes := 0 |}
        | Some (rx, s2) =>
          match skip_decimals 7 s2 with
          | None => {| assigned := 2; interface := name; rx_bytes := rx; tx_bytes := 0 |}
          | Some s3 =>
            match scan_lld (skip_space s3) with
            | None => {| assigned := 2; interface := name; rx_bytes := rx; tx_bytes := 0 |}
            | Some (tx, _) =>
                {| assigned := 3; interface := name; rx_bytes := rx; tx_bytes := tx |}
            end
          end
        end
      end
    end
  end.

(** Each [fgets] that returns a line consumes input: the measure of the
    loops below. *)
Definition fgets_chars_shorter room s l r :
  fgets_chars room s = (l, r) -> (String.length r <= String.length s)%nat.
Proof.
  revert s l r. induction room as [|room IH]; intros [|c s] l r; simpl;
    try (intros [= <- <-]; simpl; lia).
  destruct (Ascii.eqb c "010"%char).
  - intros [= <- <-]. lia.
  - destruct (fgets_chars room s) as [l' r'] eqn:E. intros [= <- <-].
    specialize (IH _ _ _ E). lia.
Defined.

Definition fgets_shorter s l r :
  fgets 256 s = Some (l, r) -> (String.length r < String.length s)%nat.
Proof.
  destruct s as [|c s]; [discriminate|]. unfold fgets.
  remember (Nat.pred 256) as n eqn:Hn. destruct n as [|n]; [discriminate Hn|].
  intros H.
  assert (E : fgets_chars (S n) (String c s) = (l, r)) by congruence.
  clear H Hn. cbn [fgets_chars] in E.
  destruct (Ascii.eqb c "010"%char).
  - injection E as <- <-. simpl. lia.
  - destruct (fgets_chars n s) as [l' r'] eqn:E'. injection E as <- <-.
    apply fgets_chars_shorter in E'. simpl. lia.
Defined.

Definition inspect {A : Type} (a : A) : {b : A | a = b} := exist _ a eq_refl.

(** The loop [while (fgets(line, sizeof(line), file)) { ... }] on the
    unread part of the file and the two output cells. *)
Equations? read_interfaces (file : string) (bytesReceived bytesSent : Z)
  : Z * Z by wf (String.length file) lt :=
  read_interfaces file bytesReceived bytesSent with inspect (fgets 256 file) := {
    | @exist None _ => (bytesReceived, bytesSent)
    | @exist (Some (line, rest)) _ =>
        let r := sscanf_netdev (c_str line) in
        if assigned r =? 3 then
          if negb (strcmp_eq (interface r) "lo") then
            read_interfaces rest (s64 (bytesReceived + rx_bytes r))
                                 (s64 (bytesSent + tx_bytes r))
          else read_interfaces rest bytesReceived bytesSent
        else read_interfaces rest bytesReceived bytesSent
  }.
Proof.
  all: eapply fgets_shorter; eauto.
Defined.

(** The unread part of a stream after one [fgets] whose result is not
    looked at. *)
Definition skip_line (file : string) : string :=
  match fgets 256 file with
  | Some (_, rest) => rest
  | None => file
  end.

(** [int GetNetworkStats(long long* bytesReceived, long long* bytesSent)]:
    the return value and the final content of the two cells, which are
    taken to be distinct objects. *)
Definition GetNetworkStats (h : Host) (bytesReceived bytesSent : Z)
  : Z * Z * Z :=
  match fopen h "/proc/net/dev" with
  | None => (0, bytesReceived, bytesSent)
  | Some file =>
      let bytesReceived := 0 in
      let bytesSent := 0 in
      let file := skip_line (skip_line file) in
      let '(rx, tx) := read_interfaces file bytesReceived bytesSent in
      (1, rx, tx)
  end.

(** *** GetTopProcesses *)

(** The three caller-provided arrays.  [processNames[i]] is a buffer the
    caller owns; its content is the string [strcpy] leaves there, and it
    is taken to be large enough for a directory entry name. *)
Record ProcessArrays := {
  processIds : list Z;
  processNames : list string;
  memoryUsages : list Z
}.

(** [a[i] = v]: undefined ([None]) outside the array. *)
Definition store {A : Type} (a : list A) (i : Z) (v : A) : option (list A) :=
  if (0 <=? i) && (i <? Z.of_nat (length a))
  then Some (<[Z.to_nat i := v]> a)
  else None.

(** [strspn(s, "0123456789") == strlen(s)] *)
Fixpoint all_digits (s : string) : bool :=
  match s with
  | EmptyString => true
  | String c s' => isdigit c && all_digits s'
  end.

(** [atoi] on a string of digits: [(int) strtol(s, NULL, 10)]. *)
Definition atoi (s : string) : Z :=
  s32 (Z.min (fst (scan_digits 0 s)) LONG_MAX).

(** The three stores of the loop body at index [count]. *)
Definition store_process (out : ProcessArrays) (count : Z) (entry : dirent)
  : option ProcessArrays :=
  match store (processIds out) count (atoi (d_name entry)) with
  | None => None
  | Some ids =>
    match store (processNames out) count (d_name entry) with
    | None => None
    | Some names =>
      match store (memoryUsages out) count 0 with
      | None => None
      | Some mems =>
          Some {| processIds := ids; processNames := names; memoryUsages := mems |}
      end
    end
  end.

(** [while ((entry = readdir(proc)) != NULL && count < maxCount) { ... }]
    on the entries [readdir] has yet to return; the result is the final
    [count] and the arrays.  [count] stays below [maxCount], an [int], so
    [count++] does not overflow. *)
Fixpoint top_loop (entries : list dirent) (count maxCount : Z)
         (out : ProcessArrays) : option (Z * ProcessArrays) :=
  match entries with
  | [] => Some (count, out)
  | entry :: rest =>
      if count <? maxCount then
        if (d_type entry =? DT_DIR) && all_digits (d_name entry) then
          match store_process out count entry with
          | Some out' => top_loop rest (count + 1) maxCount out'
          | None => None
          end
        else top_loop rest count maxCount out
      else Some (count, out)
  end.

(** [void GetTopProcesses(int* processIds, char** processNames,
    long long* memoryUsages, int maxCount)]: the number of records
    written (the final value of the local [count]) and the arrays. *)
Definition GetTopProcesses (h : Host) (out : ProcessArrays) (maxCount : Z)
  : option (Z * ProcessArrays) :=
  match opendir h "/proc" with
  | None => Some (0, out)
  | Some entries => top_loop entries 0 maxCount out
  end.

(** *** GetDiskUsage *)

(** [int GetDiskUsage(const char* path, long long* totalSpace,
    long long* freeSpace)]: the return value and the content of the two
    cells.  The products are formed in [unsigned long] and converted to
    [long long]. *)
Definition GetDiskUsage (h : Host) (path : string) (totalSpace freeSpace : Z)
  : Z * Z * Z :=
  match statvfs h path with
  | Some stat =>
      let totalSpace := s64 (u64 (f_blocks stat * f_frsize stat)) in
      let freeSpace := s64 (u64 (f_bavail stat * f_frsize stat)) in
      (1, totalSpace, freeSpace)
  | None => (0, totalSpace, freeSpace)
  end.

(** *** CheckPortStatus *)

(** [int CheckPortStatus(const char* host, int port)].  [address] is not
    initialised: [sin_addr] keeps its indeterminate content
    [stack_addr] when [inet_pton] stores nothing.  The descriptor is
    closed before the function returns. *)
Definition CheckPortStatus (h : Host) (stack_addr : Z) (host : string) (port : Z)
  : Z :=
  let sock := socket h AF_INET SOCK_STREAM 0 in
  if sock <? 0 then 0
  else
    let address :=
      {| sin_family := AF_INET;
         sin_port := htons (u16 port);
         sin_addr := match inet_pton h AF_INET host with
                     | Some a => a
                     | None => stack_addr
                     end |} in
    let result := connect h sock address in
    if result =? 0 then 1 else 0.

End SystemMonitor.

(** ** The same operations in the words of the specification

    These follow the prose of the specification, not the code, and are
    what the code is compared with. *)

Module Specification.
Import CTypes SystemMonitor.

(** "clamping negative deltas to 0" *)
Definition clamped_delta (current last : Z) : Z := Z.max 0 (current - last).

(** "busy = (user2-user1) + (nice2-nice1) + (sys2-sys1);
     total = busy + (idle2-idle1);
     percent = total>0 ? 100*busy/total : 0", with clamped deltas. *)
Definition SampleCpuUtilization (st : Statics) (t : CpuTimes) : Double.double :=
  let busy := clamped_delta (totalUser t) (lastTotalUser st)
              + clamped_delta (totalUserLow t) (lastTotalUserLow st)
              + clamped_delta (totalSys t) (lastTotalSys st) in
  let total := busy + clamped_delta (totalIdle t) (lastTotalIdle st) in
  if 0 <? total
  then Double.div (Double.mul (Double.of_u64 busy) Double.hundred)
                  (Double.of_u64 total)
  else Double.zero.

(** The ticks between the stored baseline and a reading, as integers. *)
Definition elapsed_busy (st : Statics) (t : CpuTimes) : Z :=
  (totalUser t - lastTotalUser st)
  + (totalUserLow t - lastTotalUserLow st)
  + (totalSys t - lastTotalSys st).

Definition elapsed (st : Statics) (t : CpuTimes) : Z :=
  elapsed_busy st t + (totalIdle t - lastTotalIdle st).

(** No component of the reading is below the stored baseline. *)
Definition non_decreasing (st : Statics) (t : CpuTimes) : Prop :=
  lastTotalUser st <= totalUser t
  /\ lastTotalUserLow st <= totalUserLow t
  /\ lastTotalSys st <= totalSys t
  /\ lastTotalIdle st <= totalIdle t.

(** The lines successive [fgets] calls return. *)
Equations? file_lines (file : string) : list string
  by wf (String.length file) lt :=
  file_lines file with inspect (Scanf.fgets 256 file) := {
    | @exist None _ => []
    | @exist (Some (line, rest)) _ => line :: file_lines rest
  }.
Proof.
  eapply fgets_shorter; eauto.
Defined.

(** The lines of the unread part of a stream that [sscanf] scans
    completely (three items assigned), in order. *)
Definition scan_lines (stream : string) : list netdev_scan :=
  List.filter (fun r => assigned r =? 3)
              (map (fun line => sscanf_netdev (Scanf.c_str line))
                   (file_lines stream)).

(** The interfaces that are aggregated: those not named exactly [lo]. *)
Definition counted (l : list netdev_scan) : list netdev_scan :=
  List.filter (fun r => negb (String.eqb (interface r) "lo")) l.

Definition sum_rx (l : list netdev_scan) : Z := fold_right Z.add 0 (map rx_bytes l).
Definition sum_tx (l : list netdev_scan) : Z := fold_right Z.add 0 (map tx_bytes l).

(** "aggregates all non-loopback interfaces found on the current raw
    read into one rx/tx pair": the cumulative totals of a read, after
    the two header lines. *)
Definition cumulative_totals (file : string) : Z * Z :=
  let l := counted (scan_lines (skip_line (skip_line file))) in
  (s64 (sum_rx l), s64 (sum_tx l)).

(** "first-call-returns-baseline semantics": a sampler with a stored
    previous reading, [None] before the first call. *)
Definition SampleNetworkRates (previous : option (Z * Z)) (file : string)
  : option (Z * Z) * (Z * Z) :=
  let current := cumulative_totals file in
  match previous with
  | None => (Some current, (0, 0))
  | Some (rx0, tx0) => (Some current, (fst current - rx0, snd current - tx0))
  end.

(** [GetNetworkStats] behaves as that sampler on the first two calls of a
    process: the first returns zeros, the second the difference of the
    two reads. *)
Definition first_call_returns_baseline : Prop :=
  forall (h1 h2 : Host) (file1 file2 : string) (rx0 tx0 : Z),
    fopen h1 "/proc/net/dev" = Some file1 ->
    fopen h2 "/proc/net/dev" = Some file2 ->
    let call1 := SampleNetworkRates None file1 in
    let call2 := SampleNetworkRates (fst call1) file2 in
    GetNetworkStats h1 rx0 tx0 = (1, fst (snd call1), snd (snd call1))
    /\ GetNetworkStats h2 (fst (snd call1)) (snd (snd call1))
       = (1, fst (snd call2), snd (snd call2)).

End Specification.

(** ** Concrete hosts and inputs *)

Module Samples.
Import CTypes SystemMonitor.

Local Open Scope string_scope.

Definition nl : string := String "010"%char EmptyString.

(** A host whose [/proc/stat] and [/proc/net/dev] have the given content,
    whose [/proc] has the given entries, with one mounted file system at
    ["/"], and on which sockets can be created but nothing listens. *)
Definition host (proc_stat proc_net_dev : option string) (proc : list dirent)
  : Host :=
  {| fopen := fun path =>
       if String.eqb path "/proc/stat" then proc_stat
       else if String.eqb path "/proc/net/dev" then proc_net_dev
       else None;
     opendir := fun path => if String.eqb path "/proc" then Some proc else None;
     statvfs := fun path =>
       if String.eqb path "/"
       then Some {| f_blocks := 1000; f_frsize := 4096; f_bavail := 250 |}
       else None;
     socket := fun _ _ _ => 3;
     inet_pton := fun _ _ => Some 16777343;
     connect := fun _ _ => -1 |}.

Definition cpu_host (proc_stat : string) : Host := host (Some proc_stat) None [].
Definition net_host (proc_net_dev : string) : Host := host None (Some proc_net_dev) [].

(** A host that has run out of descriptors. *)
Definition exhausted_host : Host :=
  {| fopen := fun _ => None; opendir := fun _ => None; statvfs := fun _ => None;
     socket := fun _ _ _ => -1;
     inet_pton := fun _ _ => None;
     connect := fun _ _ => 0 |}.

Definition some_locals : CpuTimes :=
  {| totalUser := 41; totalUserLow := 42; totalSys := 43; totalIdle := 44 |}.

(** The statics after a sample [cpu 10 0 0 100]. *)
Definition after_10_0_0_100 : Statics :=
  {| perfCountersInitialized := true;
     lastTotalUser := 10; lastTotalUserLow := 0;
     lastTotalSys := 0; lastTotalIdle := 100 |}.

Definition netdev_header : string :=
  "Inter-|   Receive                                                |  Transmit" ++ nl ++
  " face |bytes    packets errs drop fifo frame compressed multicast|bytes    packets errs drop fifo colls carrier compressed" ++ nl.

(** Two interfaces, names starting in the first column. *)
Definition netdev_plain : string :=
  netdev_header ++
  "eth0: 100 1 0 0 0 0 0 0 50 1 0 0 0 0 0 0" ++ nl ++
  "lo: 999 9 0 0 0 0 0 0 999 9 0 0 0 0 0 0" ++ nl.

(** The same interfaces a little later. *)
Definition netdev_plain_later : string :=
  netdev_header ++
  "eth0: 160 2 0 0 0 0 0 0 80 2 0 0 0 0 0 0" ++ nl ++
  "lo: 999 9 0 0 0 0 0 0 999 9 0 0 0 0 0 0" ++ nl.

(** The same two interfaces as Linux prints them: the name is right
    aligned in a field of six characters. *)
Definition netdev_linux : string :=
  netdev_header ++
  "  eth0: 100 1 0 0 0 0 0 0 50 1 0 0 0 0 0 0" ++ nl ++
  "    lo: 999 9 0 0 0 0 0 0 999 9 0 0 0 0 0 0" ++ nl.

Definition proc_entries : list dirent :=
  [ {| d_type := 4; d_name := "." |};
    {| d_type := 4; d_name := "1" |};
    {| d_type := 8; d_name := "uptime" |};
    {| d_type := 4; d_name := "42" |};
    {| d_type := 4; d_name := "self" |};
    {| d_type := 4; d_name := "977" |} ].

Definition two_slots : ProcessArrays :=
  {| processIds := [-1; -1];
     processNames := ["?"; "?"];
     memoryUsages := [-1; -1] |}.

End Samples.

(** ** SystemMonitor.cpp: the remaining functions *)

Module SystemMonitorRest.
Import CTypes Scanf SystemMonitor.

(** *** GetAvailableMemory and GetTotalMemory *)

(** The fields of [struct sysinfo] the file reads: [totalram] and
    [freeram] are [unsigned long], [mem_unit] is [unsigned int]. *)
Record sysinfo_t := { totalram : Z; freeram : Z; mem_unit : Z }.

(** [struct sysinfo info; sysinfo(&info);]: the return value is not
    looked at and [info] is not initialised, so when the call fails
    ([None]) the fields keep the indeterminate content [stack]. *)
Definition call_sysinfo (sysinfo : option sysinfo_t) (stack : sysinfo_t)
  : sysinfo_t :=
  match sysinfo with
  | Some info => info
  | None => stack
  end.

(** [long long GetAvailableMemory()]: the product is formed in
    [unsigned long] and converted to [long long]. *)
Definition GetAvailableMemory (sysinfo : option sysinfo_t) (stack : sysinfo_t)
  : Z :=
  let info := call_sysinfo sysinfo stack in
  s64 (u64 (freeram info * mem_unit info)).

(** [long long GetTotalMemory()] *)
Definition GetTotalMemory (sysinfo : option sysinfo_t) (stack : sysinfo_t)
  : Z :=
  let info := call_sysinfo sysinfo stack in
  s64 (u64 (totalram info * mem_unit info)).

(** *** GetProcessCount *)

(** [entry->d_type == DT_DIR &&
     strspn(entry->d_name, "0123456789") == strlen(entry->d_name)] *)
Definition is_process_entry (entry : dirent) : bool :=
  (d_type entry =? DT_DIR) && all_digits (d_name entry).

(** [while ((entry = readdir(proc)) != NULL) { if (...) count++; }] with
    [count] an [int] (two's complement on overflow). *)
Fixpoint count_loop (entries : list dirent) (count : Z) : Z :=
  match entries with
  | [] => count
  | entry :: rest =>
      if is_process_entry entry
      then count_loop rest (s32 (count + 1))
      else count_loop rest count
  end.

(** [int GetProcessCount()] *)
Definition GetProcessCount (h : Host) : Z :=
  match opendir h "/proc" with
  | None => 0
  | Some entries => count_loop entries 0
  end.

(** *** ListDirectory *)

(** [strcmp(entry->d_name, ".") != 0 && strcmp(entry->d_name, "..") != 0] *)
Definition is_listed (name : string) : bool :=
  negb (strcmp_eq name ".") && negb (strcmp_eq name "..").

(** [while ((entry = readdir(dir)) != NULL && count < maxFiles) { ... }]:
    the final [count] and the content of the buffers [fileNames[i]],
    each taken to be large enough for a name. *)
Fixpoint list_loop (entries : list dirent) (count maxFiles : Z)
         (fileNames : list string) : option (Z * list string) :=
  match entries with
  | [] => Some (count, fileNames)
  | entry :: rest =>
      if count <? maxFiles then
        if is_listed (d_name entry) then
          match store fileNames count (d_name entry) with
          | Some fileNames' => list_loop rest (count + 1) maxFiles fileNames'
          | None => None
          end
        else list_loop rest count maxFiles fileNames
      else Some (count, fileNames)
  end.

(** [int ListDirectory(const char* path, char** fileNames, int maxFiles)]:
    the return value and the array. *)
Definition ListDirectory (h : Host) (path : string) (fileNames : list string)
           (maxFiles : Z) : option (Z * list string) :=
  match opendir h path with
  | None => Some (0, fileNames)
  | Some entries => list_loop entries 0 maxFiles fileNames
  end.

(** *** Lines of a text file *)

(** A line [fgets] returns whole: it ends with its only newline. *)
Fixpoint ends_line (s : string) : bool :=
  match s with
  | EmptyString => false
  | String c EmptyString => Ascii.eqb c "010"%char
  | String c s' => negb (Ascii.eqb c "010"%char) && ends_line s'
  end.

(** ... and fits the buffer [char line[256]]. *)
Definition whole_line (s : string) : bool :=
  ends_line s && (String.length s <=? 255)%nat.

(** The file made of the given lines. *)
Definition concat_lines (lines : list string) : string :=
  fold_right String.append EmptyString lines.

(** What the loop of [GetNetworkStats] gets from [sscanf] on each line
    that scans completely. *)
Definition scanned (lines : list string) : list netdev_scan :=
  List.filter (fun r => assigned r =? 3)
              (map (fun line => sscanf_netdev (c_str line)) lines).

(** The array [a] with the slots from [n] on overwritten by [vs]. *)
Definition overwrite {A : Type} (a : list A) (n : nat) (vs : list A) : list A :=
  take n a ++ vs ++ drop (n + length vs) a.

(** The entry names [ListDirectory] lists: all but [.] and [..]. *)
Definition listed_names (entries : list dirent) : list string :=
  List.filter is_listed (map d_name entries).

(** The records [GetTopProcesses] writes for the given entries. *)
Definition process_ids (written : list dirent) : list Z :=
  map (fun entry => atoi (d_name entry)) written.
Definition process_names (written : list dirent) : list string :=
  map d_name written.
Definition process_memories (written : list dirent) : list Z :=
  map (fun _ => 0) written.

(** Number of process entries. *)
Definition process_entries (entries : list dirent) : nat :=
  length (List.filter is_process_entry entries).

(** A line that contributes nothing: it does not scan completely, or its
    name field is exactly [lo]. *)
Definition ignored_line (line : string) : bool :=
  let r := sscanf_netdev (c_str line) in
  negb (assigned r =? 3) || String.eqb (interface r) "lo".

(** The first [n] characters of [s] hold no [':']. *)
Fixpoint colon_free (n : nat) (s : string) : bool :=
  match n, s with
  | S n', String c s' => negb (Ascii.eqb c ":"%char) && colon_free n' s'
  | _, _ => true
  end.

End SystemMonitorRest.

(** ** SystemMonitor.cpp: the [_WIN32] branch of the two enumerations *)

Module SystemMonitorWin32.
Import CTypes Scanf SystemMonitor SystemMonitorRest.

(** What Windows answers at the time of a call. *)
Record WinHost := {
  (** [FindFirstFileA(searchPath, &findFileData)]: [None] for
      [INVALID_HANDLE_VALUE], otherwise the [cFileName] it stores and those
      the following [FindNextFileA] calls store before one returns [0]. *)
  FindFirstFileA : string -> option (string * list string);
  (** [EnumProcesses(processes, cb, &bytesReturned)]: [None] for [FALSE],
      otherwise the identifiers of the processes of the system; the call
      stores as many of them as [cb] bytes hold. *)
  EnumProcesses : option (list Z);
  (** [OpenProcess(access, FALSE, pid)]: a handle, or [None] for [NULL]. *)
  OpenProcess : Z -> option Z;
  (** [GetProcessMemoryInfo(hProcess, &pmc, cb)]: [pmc.WorkingSetSize]. *)
  GetProcessMemoryInfo : Z -> option Z;
  (** [GetModuleBaseNameA(hProcess, NULL, processName, size)]: the name
      stored, or [None] when the call returns [0]. *)
  GetModuleBaseNameA : Z -> option string
}.

(** [snprintf(searchPath, sizeof(searchPath), "%s\\*", path)] with
    [char searchPath[MAX_PATH]]: at most [MAX_PATH - 1] characters are
    kept.  [MAX_PATH] comes from the Windows headers. *)
Definition search_path (MAX_PATH : nat) (path : string) : string :=
  String.substring 0 (Nat.pred MAX_PATH) (path ++ "\*")%string.

(** The body of the [do { ... } while] loop of [ListDirectory]. *)
Definition find_body (cFileName : string) (count maxFiles : Z)
           (fileNames : list string) : option (Z * list string) :=
  if is_listed cFileName then
    if count <? maxFiles then
      match store fileNames count cFileName with
      | Some fileNames' => Some (count + 1, fileNames')
      | None => None
      end
    else Some (count, fileNames)
  else Some (count, fileNames).

(** [do { ... } while (FindNextFileA(hFind, &findFileData) != 0
                       && count < maxFiles);] *)
Fixpoint find_loop (cFileName : string) (next : list string)
         (count maxFiles : Z) (fileNames : list string)
  : option (Z * list string) :=
  match find_body cFileName count maxFiles fileNames with
  | None => None
  | Some (count', fileNames') =>
      match next with
      | [] => Some (count', fileNames')
      | name :: rest =>
          if count' <? maxFiles
          then find_loop name rest count' maxFiles fileNames'
          else Some (count', fileNames')
      end
  end.

(** [int ListDirectory(const char* path, char** fileNames, int maxFiles)]
    under [_WIN32]. *)
Definition ListDirectory (w : WinHost) (MAX_PATH : nat) (path : string)
           (fileNames : list string) (maxFiles : Z)
  : option (Z * list string) :=
  match FindFirstFileA w (search_path MAX_PATH path) with
  | None => Some (0, fileNames)
  | Some (cFileName, next) => find_loop cFileName next 0 maxFiles fileNames
  end.

(** [DWORD processes[1024]] filled by
    [EnumProcesses(processes, sizeof(processes), &bytesReturned)]: the
    first [bytesReturned / sizeof(DWORD)] elements. *)
Definition enumerated (pids : list Z) : list Z := take 1024 pids.

(** [int GetProcessCount()] under [_WIN32]. *)
Definition GetProcessCount (w : WinHost) : Z :=
  match EnumProcesses w with
  | Some pids => Z.of_nat (length (enumerated pids))
  | None => 0
  end.

(** The record the loop of [GetTopProcesses] writes for a process, if
    any: its identifier as an [int], its name or ["Unknown"], its working
    set as a [long long]. *)
Definition process_record (w : WinHost) (pid : Z) : option (Z * string * Z) :=
  match OpenProcess w pid with
  | None => None
  | Some hProcess =>
      match GetProcessMemoryInfo w hProcess with
      | None => None
      | Some WorkingSetSize =>
          let processName :=
            match GetModuleBaseNameA w hProcess with
            | Some name => name
            | None => "Unknown"%string
            end in
          Some (s32 pid, processName, s64 WorkingSetSize)
      end
  end.

(** [for (int i = 0; i < processCount && count < maxCount; i++) { ... }]
    on the elements of [processes] from index [i] on. *)
Fixpoint enum_loop (w : WinHost) (processes : list Z) (count maxCount : Z)
         (out : ProcessArrays) : option (Z * ProcessArrays) :=
  match processes with
  | [] => Some (count, out)
  | pid :: rest =>
      if count <? maxCount then
        match process_record w pid with
        | Some (id, name, memory) =>
            match store (processIds out) count id with
            | None => None
            | Some ids =>
              match store (memoryUsages out) count memory with
              | None => None
              | Some mems =>
                match store (processNames out) count name with
                | None => None
                | Some names =>
                    enum_loop w rest (count + 1) maxCount
                      {| processIds := ids; processNames := names;
                         memoryUsages := mems |}
                end
              end
            end
        | None => enum_loop w rest count maxCount out
        end
      else Some (count, out)
  end.

(** [void GetTopProcesses(...)] under [_WIN32]. *)
Definition GetTopProcesses (w : WinHost) (out : ProcessArrays) (maxCount : Z)
  : option (Z * ProcessArrays) :=
  match EnumProcesses w with
  | None => Some (0, out)
  | Some pids => enum_loop w (enumerated pids) 0 maxCount out
  end.

(** The records of the processes for which both [OpenProcess] and
    [GetProcessMemoryInfo] succeed, in the order of the identifiers. *)
Fixpoint process_records (w : WinHost) (pids : list Z) : list (Z * string * Z) :=
  match pids with
  | [] => []
  | pid :: rest =>
      match process_record w pid with
      | Some r => r :: process_records w rest
      | None => process_records w rest
      end
  end.

End SystemMonitorWin32.

(** ** More concrete hosts and inputs *)

Module MoreSamples.
Import CTypes SystemMonitor SystemMonitorRest SystemMonitorWin32.

Local Open Scope string_scope.

Definition header1 : string :=
  "Inter-|   Receive                |  Transmit" ++ Samples.nl.
Definition header2 : string :=
  " face |bytes    packets errs drop|bytes    packets errs drop" ++ Samples.nl.
Definition eth0_line : string :=
  "  eth0: 100 1 0 0 0 0 0 0 50 1 0 0 0 0 0 0" ++ Samples.nl.
Definition wlan0_line : string :=
  " wlan0: 7 1 0 0 0 0 0 0 9 1 0 0 0 0 0 0" ++ Samples.nl.
Definition lo_line : string :=
  "lo: 999 9 0 0 0 0 0 0 999 9 0 0 0 0 0 0" ++ Samples.nl.

(** A name field of 36 characters. *)
Definition long_line : string :=
  "an-interface-name-of-36-characters-x: 5 1 0 0 0 0 0 0 6 1 0 0 0 0 0 0"
  ++ Samples.nl.

(** A host whose [/proc/net/dev] has the two header lines and the given
    lines. *)
Definition netdev (lines : list string) : Host :=
  Samples.net_host (concat_lines (header1 :: header2 :: lines)).

(** A host on which [opendir] answers for one path only. *)
Definition dir_host (path : string) (entries : option (list dirent)) : Host :=
  {| fopen := fun _ => None;
     opendir := fun p => if String.eqb p path then entries else None;
     statvfs := fun _ => None;
     socket := fun _ _ _ => -1;
     inet_pton := fun _ _ => None;
     connect := fun _ _ => -1 |}.

Definition dot_entries : list dirent :=
  [ {| d_type := 4; d_name := "." |}; {| d_type := 4; d_name := ".." |} ].

Definition data_entries : list dirent :=
  [ {| d_type := 4; d_name := "." |};
    {| d_type := 4; d_name := ".." |};
    {| d_type := 8; d_name := "a.txt" |};
    {| d_type := 4; d_name := "b" |};
    {| d_type := 8; d_name := "c.txt" |} ].

Definition two_names : list string := ["?"; "?"].
Definition three_slots : ProcessArrays :=
  {| processIds := [-1; -1; -1];
     processNames := ["?"; "?"; "?"];
     memoryUsages := [-1; -1; -1] |}.

(** A Windows host: five process identifiers, the first two of which
    cannot be opened; the memory figures of one cannot be read; one has a
    name. *)
Definition win_host : WinHost :=
  {| FindFirstFileA := fun pattern =>
       if String.eqb pattern "C:\data\*"
       then Some (".", [".."; "a.txt"; "b"; "c.txt"])
       else None;
     EnumProcesses := Some [0; 4; 88; 120; 300];
     OpenProcess := fun pid => if (pid <? 10)%Z then None else Some (pid + 1000);
     GetProcessMemoryInfo := fun hProcess =>
       if (hProcess =? 1120)%Z then None else Some (4096 * hProcess);
     GetModuleBaseNameA := fun hProcess =>
       if (hProcess =? 1088)%Z then Some "svchost.exe" else None |}.

Definition meminfo : sysinfo_t :=
  {| totalram := 4000000; freeram := 1000000; mem_unit := 4096 |}.

End MoreSamples.

(** ** The first line of [/proc/stat]

    What the kernel prints there (proc(5)): the word [cpu], two blanks,
    and the cumulative tick counters in decimal ([%llu]), one blank
    apart.  [GetCpuUsage] reads the first four: user, nice, system and
    idle. *)

Module ProcStat.
Import CTypes Scanf.

(** The character of the decimal digit [d]. *)
Definition digit_char (d : Z) : ascii := ascii_of_nat (Z.to_nat (48 + d)).

(** The decimal digits of [n], most significant first, in front of
    [tail]; [fuel] bounds their number. *)
Fixpoint decimal_digits (fuel : nat) (n : Z) (tail : string) : string :=
  match fuel with
  | O => tail
  | S fuel' =>
      let tail' := String (digit_char (n mod 10)) tail in
      if n <? 10 then tail' else decimal_digits fuel' (n / 10) tail'
  end.

(** [%llu]: an [unsigned long long] has at most 20 decimal digits. *)
Definition decimal (n : Z) : string := decimal_digits 20 n EmptyString.

(** [cpu], two blanks, and the counters one blank apart. *)
Definition stat_cpu_line (user nice system idle : Z) : string :=
  ("cpu  " ++ decimal user ++ " " ++ decimal nice ++ " "
   ++ decimal system ++ " " ++ decimal idle)%string.

(** What follows a number does not go on with a digit. *)
Definition ends_number (rest : string) : bool :=
  match rest with
  | String c _ => negb (isdigit c)
  | EmptyString => true
  end.

End ProcStat.

(** ** Concrete [/proc/stat] files *)

Module CpuSamples.
Import SystemMonitor Samples.
Local Open Scope string_scope.

(** A [/proc/stat] as Linux prints it: after the four counters that are
    read, the line goes on with six more, and other lines follow. *)
Definition proc_stat_tail : string :=
  " 50 60 70 0 0 0" ++ nl ++
  "cpu0 10 20 30 40 50 60 70 0 0 0" ++ nl ++
  "intr 12345 0 0" ++ nl.

Definition proc_stat_linux : string := "cpu  10 20 30 40" ++ proc_stat_tail.

(** The same file on a machine that has not yet accounted a user tick,
    and a little later. *)
Definition proc_stat_no_user_tail : string :=
  " 0 0 0 0 0 0" ++ nl ++ "cpu0 0 7 3 900 0 0 0 0 0 0" ++ nl.

Definition proc_stat_no_user : string := "cpu  0 7 3 900" ++ proc_stat_no_user_tail.

Definition proc_stat_later_tail : string :=
  " 0 0 0 0 0 0" ++ nl ++ "cpu0 20 0 0 10 0 0 0 0 0 0" ++ nl.

Definition proc_stat_later : string := "cpu  20 0 0 10" ++ proc_stat_later_tail.

(** Statics with a stored user count and nothing else. *)
Definition only_user_10 : Statics :=
  {| perfCountersInitialized := false;
     lastTotalUser := 10; lastTotalUserLow := 0;
     lastTotalSys := 0; lastTotalIdle := 0 |}.

End CpuSamples.

(** * Properties *)

(** ** Reading back what the kernel printed *)

Module Readings.
Import CTypes Scanf SystemMonitor ProcStat.

Lemma append_assoc (a b c : string) : ((a ++ b) ++ c = a ++ (b ++ c))%string.
Proof. induction a as [|x a IH]; cbn; [reflexivity|]. rewrite IH. reflexivity. Qed.

Lemma digit_cases d : 0 <= d <= 9 ->
  d = 0 \/ d = 1 \/ d = 2 \/ d = 3 \/ d = 4 \/ d = 5 \/ d = 6 \/ d = 7 \/ d = 8 \/ d = 9.
Proof. lia. Qed.

Lemma mod_10_digit n : 0 <= n mod 10 <= 9.
Proof. pose proof (Z.mod_pos_bound n 10). lia. Qed.

Ltac each_digit d H :=
  destruct (digit_cases d H) as [->|[->|[->|[->|[->|[->|[->|[->|[->| ->]]]]]]]]].

Lemma scan_digits_digit d acc tail :
  0 <= d <= 9 ->
  scan_digits acc (String (digit_char d) tail) = scan_digits (10 * acc + d) tail.
Proof. intros Hd. each_digit d Hd; reflexivity. Qed.

Lemma skip_space_digit d tail :
  0 <= d <= 9 ->
  skip_space (String (digit_char d) tail) = String (digit_char d) tail.
Proof. intros Hd. each_digit d Hd; reflexivity. Qed.

Lemma scan_decimal_digit d tail :
  0 <= d <= 9 ->
  scan_decimal (String (digit_char d) tail)
  = let '(m, r) := scan_digits 0 (String (digit_char d) tail) in Some (false, m, r).
Proof. intros Hd. each_digit d Hd; reflexivity. Qed.

Lemma decimal_digits_app fuel : forall n tail rest,
  (decimal_digits fuel n tail ++ rest)%string = decimal_digits fuel n (tail ++ rest).
Proof.
  induction fuel as [|fuel IH]; intros n tail rest; cbn [decimal_digits]; [reflexivity|].
  destruct (n <? 10); [reflexivity|]. rewrite IH. reflexivity.
Qed.

Lemma decimal_digits_head fuel : forall n tail,
  0 <= n ->
  exists d r, 0 <= d <= 9 /\ decimal_digits (S fuel) n tail = String (digit_char d) r.
Proof.
  induction fuel as [|fuel IH]; intros n tail Hn.
  - exists (n mod 10), tail. split; [apply mod_10_digit|].
    cbn [decimal_digits]. destruct (n <? 10); reflexivity.
  - change (decimal_digits (S (S fuel)) n tail)
      with (if n <? 10 then String (digit_char (n mod 10)) tail
            else decimal_digits (S fuel) (n / 10) (String (digit_char (n mod 10)) tail)).
    destruct (n <? 10).
    + exists (n mod 10), tail. split; [apply mod_10_digit|reflexivity].
    + apply IH. apply Z.div_pos; lia.
Qed.

Lemma scan_digits_decimal fuel : forall n tail,
  0 <= n < 10 ^ Z.of_nat fuel ->
  scan_digits 0 (decimal_digits fuel n tail) = scan_digits n tail.
Proof.
  induction fuel as [|fuel IH]; intros n tail Hn.
  - cbn in Hn. assert (n = 0) by lia. subst n. reflexivity.
  - cbn [decimal_digits]. destruct (Z.ltb_spec n 10) as [Hlt|Hge].
    + rewrite scan_digits_digit by apply mod_10_digit.
      rewrite Z.mod_small by lia. f_equal.
    + rewrite IH.
      * rewrite scan_digits_digit by apply mod_10_digit.
        f_equal. pose proof (Z.div_mod n 10). lia.
      * rewrite Nat2Z.inj_succ, Z.pow_succ_r in Hn by lia.
        split; [apply Z.div_pos; lia|].
        apply Z.div_lt_upper_bound; lia.
Qed.

Lemma scan_digits_end n rest :
  ends_number rest = true -> scan_digits n rest = (n, rest).
Proof.
  destruct rest as [|c rest]; [reflexivity|]. cbn [ends_number scan_digits].
  intros Hc. apply negb_true_iff in Hc. rewrite Hc. reflexivity.
Qed.

Lemma skip_blank s : skip_space (String " " s) = skip_space s.
Proof. reflexivity. Qed.

(** The line for the counters 0, 7, [ULLONG_MAX] and 900. *)
Lemma stat_cpu_line_sample :
  stat_cpu_line 0 7 18446744073709551615 900
  = "cpu  0 7 18446744073709551615 900"%string.
Proof. reflexivity. Qed.

(** [%llu] reads back what the kernel printed. *)
Lemma scan_llu_decimal n rest :
  0 <= n < 2 ^ 64 -> ends_number rest = true ->
  scan_llu (skip_space (decimal n ++ rest)) = Some (n, rest).
Proof.
  intros Hn Hrest. unfold decimal. rewrite decimal_digits_app. cbn [String.append].
  destruct (decimal_digits_head 19 n rest) as (d & r & Hd & Hhead); [lia|].
  unfold scan_llu. rewrite Hhead, skip_space_digit, scan_decimal_digit by exact Hd.
  rewrite <- Hhead. rewrite scan_digits_decimal by (cbn; lia).
  rewrite scan_digits_end by exact Hrest.
  unfold to_unsigned_long_long, ULLONG_MAX.
  destruct (Z.ltb_spec (2 ^ 64 - 1) n); [lia|reflexivity].
Qed.

(** The four counters of a [cpu] line are what [fscanf] stores in the
    locals, whatever the locals held. *)
Lemma fscanf_cpu_stat_cpu_line user nice system idle rest locals :
  0 <= user < 2 ^ 64 -> 0 <= nice < 2 ^ 64 ->
  0 <= system < 2 ^ 64 -> 0 <= idle < 2 ^ 64 ->
  ends_number rest = true ->
  fscanf_cpu (stat_cpu_line user nice system idle ++ rest) locals
  = {| totalUser := user; totalUserLow := nice;
       totalSys := system; totalIdle := idle |}.
Proof.
  intros Hu Hn Hs Hi Hrest. unfold stat_cpu_line, fscanf_cpu.
  rewrite !append_assoc.
  cbn [String.append].
  change (match_literal "cpu" (String "c" (String "p" (String "u" ?x)))) with (Some x).
  cbv beta iota.
  rewrite !skip_blank.
  rewrite (scan_llu_decimal user) by (reflexivity || assumption).
  rewrite !skip_blank.
  rewrite (scan_llu_decimal nice) by (reflexivity || assumption).
  rewrite !skip_blank.
  rewrite (scan_llu_decimal system) by (reflexivity || assumption).
  rewrite !skip_blank.
  rewrite (scan_llu_decimal idle) by (reflexivity || assumption).
  reflexivity.
Qed.

End Readings.

(** ** GetCpuUsage: the baseline *)

Module CpuBaseline.
Import CTypes SystemMonitor ProcStat Readings.

Lemma InitializePerfCounters_last st :
  lastTotalUser (InitializePerfCounters st) = lastTotalUser st
  /\ lastTotalUserLow (InitializePerfCounters st) = lastTotalUserLow st
  /\ lastTotalSys (InitializePerfCounters st) = lastTotalSys st
  /\ lastTotalIdle (InitializePerfCounters st) = lastTotalIdle st.
Proof. unfold InitializePerfCounters. destruct (perfCountersInitialized st); auto. Qed.

Lemma InitializePerfCounters_done st :
  perfCountersInitialized (InitializePerfCounters st) = true.
Proof.
  unfold InitializePerfCounters.
  destruct (perfCountersInitialized st) eqn:E; simpl; auto.
Qed.

(** Whenever the stored user count is [0] the call takes the baseline
    branch. *)
Lemma GetCpuUsage_sentinel h locals st file :
  fopen h "/proc/stat" = Some file ->
  lastTotalUser st = 0 ->
  GetCpuUsage h locals st
  = (store_last (InitializePerfCounters st) (fscanf_cpu file locals), Double.zero).
Proof.
  intros Hopen Hz. unfold GetCpuUsage. rewrite Hopen.
  destruct (InitializePerfCounters_last st) as [-> _]. rewrite Hz. reflexivity.
Qed.

(** With a stored user count other than [0] the call computes the
    quotient. *)
Lemma GetCpuUsage_delta h locals st file :
  fopen h "/proc/stat" = Some file ->
  lastTotalUser st <> 0 ->
  GetCpuUsage h locals st
  = (store_last (InitializePerfCounters st) (fscanf_cpu file locals),
     percent_of st (fscanf_cpu file locals)).
Proof.
  intros Hopen Hnz. unfold GetCpuUsage. rewrite Hopen.
  destruct (InitializePerfCounters_last st) as (Hu & Hl & Hs & Hi).
  rewrite Hu. destruct (Z.eqb_spec (lastTotalUser st) 0) as [|_]; [contradiction|].
  unfold percent_of, all_ticks, total. rewrite Hu, Hl, Hs, Hi. reflexivity.
Qed.

Lemma GetCpuUsage_unreadable h locals st :
  fopen h "/proc/stat" = None ->
  GetCpuUsage h locals st = (InitializePerfCounters st, Double.zero).
Proof. intros Hopen. unfold GetCpuUsage. rewrite Hopen. reflexivity. Qed.

(** A call that reads a [cpu] line stores its four counters, whatever
    the statics and the locals held. *)
Lemma GetCpuUsage_stores_reading h locals st user nice system idle rest :
  0 <= user < 2 ^ 64 -> 0 <= nice < 2 ^ 64 ->
  0 <= system < 2 ^ 64 -> 0 <= idle < 2 ^ 64 ->
  ends_number rest = true ->
  fopen h "/proc/stat" = Some (stat_cpu_line user nice system idle ++ rest)%string ->
  GetCpuUsage h locals st
  = ({| perfCountersInitialized := true;
        lastTotalUser := user; lastTotalUserLow := nice;
        lastTotalSys := system; lastTotalIdle := idle |},
     if lastTotalUser st =? 0 then Double.zero
     else percent_of st {| totalUser := user; totalUserLow := nice;
                           totalSys := system; totalIdle := idle |}).
Proof.
  intros Hu Hn Hs Hi Hrest Hopen.
  pose proof (fscanf_cpu_stat_cpu_line user nice system idle rest locals
                Hu Hn Hs Hi Hrest) as Hscan.
  destruct (Z.eqb_spec (lastTotalUser st) 0) as [Hz|Hnz].
  - rewrite (GetCpuUsage_sentinel h locals st _ Hopen Hz), Hscan.
    unfold store_last. rewrite InitializePerfCounters_done. reflexivity.
  - rewrite (GetCpuUsage_delta h locals st _ Hopen Hnz), Hscan.
    unfold store_last. rewrite InitializePerfCounters_done. reflexivity.
Qed.

(** C5: the first call of a process returns exactly [0.0], whatever the
    host answers, and the current reading is the stored baseline
    afterwards: when [/proc/stat] begins with the [cpu] line of the
    kernel, the statics hold the four counters of that line, whatever the
    locals held before.  In general they hold what [fscanf] left in the
    four locals; when [/proc/stat] could not be opened there is no
    reading, and the statics keep their initial zeros. *)
Theorem GetCpuUsage_first_call (h : Host) (locals : CpuTimes) :
  snd (GetCpuUsage h locals process_start) = Double.zero
  /\ (forall (user nice system idle : Z) (rest : string),
        0 <= user < 2 ^ 64 -> 0 <= nice < 2 ^ 64 ->
        0 <= system < 2 ^ 64 -> 0 <= idle < 2 ^ 64 ->
        ends_number rest = true ->
        fopen h "/proc/stat"
        = Some (stat_cpu_line user nice system idle ++ rest)%string ->
        fst (GetCpuUsage h locals process_start)
        = {| perfCountersInitialized := true;
             lastTotalUser := user; lastTotalUserLow := nice;
             lastTotalSys := system; lastTotalIdle := idle |})
  /\ match fopen h "/proc/stat" with
     | Some file =>
         let t := fscanf_cpu file locals in
         fst (GetCpuUsage h locals process_start)
         = {| perfCountersInitialized := true;
              lastTotalUser := totalUser t;
              lastTotalUserLow := totalUserLow t;
              lastTotalSys := totalSys t;
              lastTotalIdle := totalIdle t |}
     | None =>
         fst (GetCpuUsage h locals process_start)
         = {| perfCountersInitialized := true;
              lastTotalUser := 0; lastTotalUserLow := 0;
              lastTotalSys := 0; lastTotalIdle := 0 |}
     end.
Proof.
  split; [|split].
  - destruct (fopen h "/proc/stat") as [file|] eqn:Hopen.
    + rewrite (GetCpuUsage_sentinel h locals process_start file Hopen eq_refl).
      reflexivity.
    + rewrite (GetCpuUsage_unreadable h locals process_start Hopen). reflexivity.
  - intros user nice system idle rest Hu Hn Hs Hi Hrest Hopen.
    rewrite (GetCpuUsage_stores_reading h locals process_start
               user nice system idle rest Hu Hn Hs Hi Hrest Hopen).
    reflexivity.
  - destruct (fopen h "/proc/stat") as [file|] eqn:Hopen.
    + rewrite (GetCpuUsage_sentinel h locals process_start file Hopen eq_refl).
      reflexivity.
    + rewrite (GetCpuUsage_unreadable h locals process_start Hopen). reflexivity.
Qed.

(** The first call on a [/proc/stat] as Linux prints it, while the locals
    hold 41, 42, 43 and 44: it returns [0.0] and the baseline is
    [10 20 30 40]. *)
Lemma GetCpuUsage_first_call_witness :
  GetCpuUsage (Samples.cpu_host CpuSamples.proc_stat_linux) Samples.some_locals
              process_start
  = ({| perfCountersInitialized := true;
        lastTotalUser := 10; lastTotalUserLow := 20;
        lastTotalSys := 30; lastTotalIdle := 40 |}, Double.zero).
Proof.
  destruct (GetCpuUsage_first_call (Samples.cpu_host CpuSamples.proc_stat_linux)
              Samples.some_locals) as (Hzero & Hstore & _).
  rewrite (surjective_pairing (GetCpuUsage _ _ _)), Hzero.
  rewrite (Hstore 10 20 30 40 CpuSamples.proc_stat_tail);
    [reflexivity|lia|lia|lia|lia|reflexivity|reflexivity].
Defined.

(** C10: a stored user count of [0] is the only mark of "no sample yet".
    Every call that reads a [cpu] line stores its four counters; it
    returns [0.0] without dividing exactly when the stored user count is
    [0], whatever the other statics hold, and the quotient of the deltas
    for every other stored user count.  A reading whose user count is [0]
    is stored as it is, so the call after it returns [0.0] and stores its
    own reading again: it is the call a process would make first. *)
Theorem GetCpuUsage_zero_user_is_no_sample
  (h1 h2 : Host) (locals1 locals2 : CpuTimes)
  (nice1 system1 idle1 user2 nice2 system2 idle2 : Z) (rest1 rest2 : string) :
  0 <= nice1 < 2 ^ 64 -> 0 <= system1 < 2 ^ 64 -> 0 <= idle1 < 2 ^ 64 ->
  0 <= user2 < 2 ^ 64 -> 0 <= nice2 < 2 ^ 64 ->
  0 <= system2 < 2 ^ 64 -> 0 <= idle2 < 2 ^ 64 ->
  ends_number rest1 = true -> ends_number rest2 = true ->
  fopen h1 "/proc/stat" = Some (stat_cpu_line 0 nice1 system1 idle1 ++ rest1)%string ->
  fopen h2 "/proc/stat"
  = Some (stat_cpu_line user2 nice2 system2 idle2 ++ rest2)%string ->
  let reading2 :=
    {| totalUser := user2; totalUserLow := nice2;
       totalSys := system2; totalIdle := idle2 |} in
  let stored1 :=
    {| perfCountersInitialized := true;
       lastTotalUser := 0; lastTotalUserLow := nice1;
       lastTotalSys := system1; lastTotalIdle := idle1 |} in
  let stored2 :=
    {| perfCountersInitialized := true;
       lastTotalUser := user2; lastTotalUserLow := nice2;
       lastTotalSys := system2; lastTotalIdle := idle2 |} in
  (forall st : Statics,
      GetCpuUsage h2 locals2 st
      = (stored2,
         if lastTotalUser st =? 0 then Double.zero else percent_of st reading2))
  /\ (forall st : Statics, fst (GetCpuUsage h1 locals1 st) = stored1)
  /\ (forall st : Statics,
        GetCpuUsage h2 locals2 (fst (GetCpuUsage h1 locals1 st))
        = (stored2, Double.zero))
  /\ (forall st : Statics,
        GetCpuUsage h2 locals2 (fst (GetCpuUsage h1 locals1 st))
        = GetCpuUsage h2 locals2 process_start).
Proof.
  intros Hn1 Hs1 Hi1 Hu2 Hn2 Hs2 Hi2 Hr1 Hr2 Ho1 Ho2. cbv zeta.
  assert (Hcall2 : forall st, GetCpuUsage h2 locals2 st
            = ({| perfCountersInitialized := true;
                  lastTotalUser := user2; lastTotalUserLow := nice2;
                  lastTotalSys := system2; lastTotalIdle := idle2 |},
               if lastTotalUser st =? 0 then Double.zero
               else percent_of st {| totalUser := user2; totalUserLow := nice2;
                                     totalSys := system2; totalIdle := idle2 |})).
  { intros st. apply (GetCpuUsage_stores_reading h2 locals2 st
                        user2 nice2 system2 idle2 rest2); assumption. }
  assert (Hcall1 : forall st, fst (GetCpuUsage h1 locals1 st)
            = {| perfCountersInitialized := true;
                 lastTotalUser := 0; lastTotalUserLow := nice1;
                 lastTotalSys := system1; lastTotalIdle := idle1 |}).
  { intros st.
    rewrite (GetCpuUsage_stores_reading h1 locals1 st 0 nice1 system1 idle1 rest1)
      by (assumption || lia).
    reflexivity. }
  split; [exact Hcall2|]. split; [exact Hcall1|]. split.
  - intros st. rewrite Hcall1, Hcall2. reflexivity.
  - intros st. rewrite Hcall1, !Hcall2. reflexivity.
Qed.

(** A reading [cpu 0 7 3 900] and then a reading [cpu 20 0 0 10]: the
    second call returns [0.0] although a reading is stored; from statics
    that hold a user count of [10] and nothing else the same reading gives
    ten busy ticks out of twenty, [50.0]. *)
Lemma GetCpuUsage_zero_user_is_no_sample_witness :
  let h1 := Samples.cpu_host CpuSamples.proc_stat_no_user in
  let h2 := Samples.cpu_host CpuSamples.proc_stat_later in
  let stored2 :=
    {| perfCountersInitialized := true;
       lastTotalUser := 20; lastTotalUserLow := 0;
       lastTotalSys := 0; lastTotalIdle := 10 |} in
  fst (GetCpuUsage h1 Samples.some_locals process_start)
  = {| perfCountersInitialized := true;
       lastTotalUser := 0; lastTotalUserLow := 7;
       lastTotalSys := 3; lastTotalIdle := 900 |}
  /\ GetCpuUsage h2 Samples.some_locals
                 (fst (GetCpuUsage h1 Samples.some_locals process_start))
     = (stored2, Double.zero)
  /\ GetCpuUsage h2 Samples.some_locals CpuSamples.only_user_10
     = (stored2, Double.of_u64 50).
Proof.
  destruct (GetCpuUsage_zero_user_is_no_sample
              (Samples.cpu_host CpuSamples.proc_stat_no_user)
              (Samples.cpu_host CpuSamples.proc_stat_later)
              Samples.some_locals Samples.some_locals
              7 3 900 20 0 0 10
              CpuSamples.proc_stat_no_user_tail CpuSamples.proc_stat_later_tail)
    as (Hany & Hstored & Hnext & _);
    [lia|lia|lia|lia|lia|lia|lia|reflexivity|reflexivity|reflexivity|reflexivity|].
  split; [exact (Hstored process_start)|].
  split; [exact (Hnext process_start)|].
  exact (Hany CpuSamples.only_user_10).
Defined.

End CpuBaseline.

(** ** GetDiskUsage and CheckPortStatus: failures *)

Module Failures.
Import CTypes SystemMonitor.

(** C7: when [statvfs] fails for the path, [GetDiskUsage] returns [0] and
    both output cells hold what they held before the call. *)
Theorem GetDiskUsage_failure_writes_nothing
  (h : Host) (path : string) (totalSpace freeSpace : Z) :
  statvfs h path = None ->
  GetDiskUsage h path totalSpace freeSpace = (0, totalSpace, freeSpace).
Proof. intros Hfail. unfold GetDiskUsage. rewrite Hfail. reflexivity. Qed.

Lemma GetDiskUsage_failure_writes_nothing_witness :
  statvfs (Samples.host None None []) "/nonexistent/path" = None
  /\ GetDiskUsage (Samples.host None None []) "/nonexistent/path" 11 22
     = (0, 11, 22).
Proof.
  split; [reflexivity|].
  apply (GetDiskUsage_failure_writes_nothing
           (Samples.host None None []) "/nonexistent/path" 11 22).
  reflexivity.
Defined.

(** On success both cells are overwritten. *)
Lemma GetDiskUsage_success h path totalSpace freeSpace stat :
  statvfs h path = Some stat ->
  GetDiskUsage h path totalSpace freeSpace
  = (1, s64 (u64 (f_blocks stat * f_frsize stat)),
        s64 (u64 (f_bavail stat * f_frsize stat))).
Proof. intros Hok. unfold GetDiskUsage. rewrite Hok. reflexivity. Qed.

(** C9: [CheckPortStatus] is a total function into [{0, 1}]: it returns
    [1] exactly when a socket could be created and [connect] returned
    [0]; a socket that cannot be created and a connection that is refused
    or unreachable both give [0]. *)
Theorem CheckPortStatus_boolean
  (h : Host) (stack_addr : Z) (host : string) (port : Z) :
  let sock := socket h AF_INET SOCK_STREAM 0 in
  let address :=
    {| sin_family := AF_INET;
       sin_port := htons (u16 port);
       sin_addr := match inet_pton h AF_INET host with
                   | Some a => a
                   | None => stack_addr
                   end |} in
  let r := CheckPortStatus h stack_addr host port in
  (r = 0 \/ r = 1)
  /\ (sock < 0 -> r = 0)
  /\ (0 <= sock -> connect h sock address <> 0 -> r = 0)
  /\ (0 <= sock -> connect h sock address = 0 -> r = 1).
Proof.
  cbv zeta. unfold CheckPortStatus.
  destruct (Z.ltb_spec (socket h AF_INET SOCK_STREAM 0) 0) as [Hneg|Hpos].
  - repeat split; auto; intros; lia.
  - match goal with |- context [connect h ?s ?a =? 0] =>
      destruct (Z.eqb_spec (connect h s a) 0) as [Hc|Hc]
    end.
    + repeat split; auto; intros; try lia; contradiction.
    + repeat split; auto; intros; try lia; contradiction.
Qed.

(** No descriptor left: [0]; nothing listening: [0]. *)
Lemma CheckPortStatus_samples :
  CheckPortStatus Samples.exhausted_host 0 "127.0.0.1" 80 = 0
  /\ CheckPortStatus (Samples.host None None []) 0 "127.0.0.1" 80 = 0.
Proof. split; reflexivity. Qed.

End Failures.

(** ** GetTopProcesses: the bound on the records written *)

Module TopProcesses.
Import CTypes SystemMonitor.

(** The arrays agree at index [j]. *)
Definition same_at (j : nat) (a b : ProcessArrays) : Prop :=
  processIds a !! j = processIds b !! j
  /\ processNames a !! j = processNames b !! j
  /\ memoryUsages a !! j = memoryUsages b !! j.

(** The arrays have the same sizes. *)
Definition same_size (a b : ProcessArrays) : Prop :=
  length (processIds a) = length (processIds b)
  /\ length (processNames a) = length (processNames b)
  /\ length (memoryUsages a) = length (memoryUsages b).

(** Each of the three arrays has room for [n] records. *)
Definition room_for (n : Z) (out : ProcessArrays) : Prop :=
  n <= Z.of_nat (length (processIds out))
  /\ n <= Z.of_nat (length (processNames out))
  /\ n <= Z.of_nat (length (memoryUsages out)).

Lemma same_at_refl j a : same_at j a a.
Proof. unfold same_at. auto. Qed.

Lemma same_size_refl a : same_size a a.
Proof. unfold same_size. auto. Qed.

#[local] Hint Resolve same_at_refl same_size_refl : core.

Lemma store_in_range {A : Type} (a : list A) (i : Z) (v : A) :
  0 <= i < Z.of_nat (length a) ->
  store a i v = Some (<[Z.to_nat i := v]> a).
Proof.
  intros Hi. unfold store.
  destruct (Z.leb_spec 0 i); [|lia].
  destruct (Z.ltb_spec i (Z.of_nat (length a))); [|lia]. reflexivity.
Qed.

Lemma store_process_in_range out count entry :
  0 <= count -> room_for (count + 1) out ->
  exists out',
    store_process out count entry = Some out'
    /\ same_size out' out
    /\ forall j : nat, j <> Z.to_nat count -> same_at j out' out.
Proof.
  intros Hc (Hi & Hn & Hm). unfold store_process.
  rewrite !store_in_range by lia.
  eexists; split; [reflexivity|]. split.
  - unfold same_size; cbn. rewrite !length_insert. auto.
  - intros j Hj. unfold same_at; cbn.
    rewrite !list_lookup_insert_ne by auto. auto.
Qed.

Lemma same_size_room n a b : same_size a b -> room_for n b -> room_for n a.
Proof. intros (E1 & E2 & E3) (H1 & H2 & H3). unfold room_for. rewrite E1, E2, E3. auto. Qed.

(** The loop invariant: [count] only grows, never beyond [maxCount], and
    only the slots from the initial to the final [count] are written. *)
Lemma top_loop_bounded maxCount entries :
  forall count out,
    0 <= count <= maxCount -> room_for maxCount out ->
    exists count' out',
      top_loop entries count maxCount out = Some (count', out')
      /\ count <= count' <= maxCount
      /\ same_size out' out
      /\ (forall j : nat,
             Z.of_nat j < count \/ count' <= Z.of_nat j -> same_at j out' out)
      /\ (count' = count -> out' = out).
Proof.
  induction entries as [|entry rest IH]; intros count out Hc Hroom; cbn [top_loop].
  - exists count, out. split; [reflexivity|]. split; [lia|]. auto.
  - destruct (Z.ltb_spec count maxCount) as [Hlt|Hge].
    + destruct ((d_type entry =? DT_DIR) && all_digits (d_name entry)).
      * destruct (store_process_in_range out count entry) as (out1 & -> & Hsz & Hsame).
        { lia. }
        { destruct Hroom as (H1 & H2 & H3). unfold room_for. lia. }
        destruct (IH (count + 1) out1) as (c' & out' & -> & Hb & Hsz' & Hsame' & _).
        { lia. }
        { eapply same_size_room; eauto. }
        exists c', out'. split; [reflexivity|]. split; [lia|]. split.
        { destruct Hsz as (?&?&?), Hsz' as (?&?&?). unfold same_size.
          repeat split; congruence. }
        split; [|intros; lia].
        intros j Hj.
        assert (Hj1 : same_at j out' out1) by (apply Hsame'; lia).
        assert (Hj2 : same_at j out1 out) by (apply Hsame; lia).
        destruct Hj1 as (?&?&?), Hj2 as (?&?&?). unfold same_at.
        repeat split; congruence.
      * destruct (IH count out) as (c' & out' & -> & Hb & Hsz' & Hsame' & Hid); auto.
        exists c', out'. split; [reflexivity|]. split; [lia|]. auto.
    + exists count, out. split; [reflexivity|]. split; [lia|]. auto.
Qed.

(** C8: for [maxCount >= 0] and caller arrays with room for [maxCount]
    records, [GetTopProcesses] returns having written [count <= maxCount]
    records: the arrays keep their sizes and every slot from [count] on
    holds what it held before; with [maxCount = 0] the arrays are left as
    they were. *)
Theorem GetTopProcesses_at_most_maxCount
  (h : Host) (out : ProcessArrays) (maxCount : Z) :
  0 <= maxCount ->
  room_for maxCount out ->
  exists count out',
    GetTopProcesses h out maxCount = Some (count, out')
    /\ 0 <= count <= maxCount
    /\ same_size out' out
    /\ (forall j : nat, count <= Z.of_nat j -> same_at j out' out)
    /\ (maxCount = 0 -> out' = out).
Proof.
  intros Hmax Hroom. unfold GetTopProcesses.
  destruct (opendir h "/proc") as [entries|].
  - destruct (top_loop_bounded maxCount entries 0 out) as
      (count & out' & -> & Hb & Hsz & Hsame & Hid); auto; [lia|].
    exists count, out'. split; [reflexivity|]. split; [lia|]. split; [exact Hsz|].
    split.
    + intros j Hj. apply Hsame. auto.
    + intros ->. apply Hid. lia.
  - exists 0, out. split; [reflexivity|]. split; [lia|]. auto.
Qed.

(** Six entries in [/proc], three of them processes, two slots. *)
Lemma GetTopProcesses_at_most_maxCount_witness :
  0 <= 2
  /\ room_for 2 Samples.two_slots
  /\ exists count out',
       GetTopProcesses (Samples.host None None Samples.proc_entries)
                       Samples.two_slots 2 = Some (count, out')
       /\ 0 <= count <= 2
       /\ same_size out' Samples.two_slots
       /\ (forall j : nat, count <= Z.of_nat j -> same_at j out' Samples.two_slots)
       /\ (2 = 0 -> out' = Samples.two_slots).
Proof.
  assert (Hroom : room_for 2 Samples.two_slots) by (unfold room_for; cbn; lia).
  split; [lia|]. split; [exact Hroom|].
  apply (GetTopProcesses_at_most_maxCount
           (Samples.host None None Samples.proc_entries) Samples.two_slots 2);
    [lia | exact Hroom].
Defined.

(** The same call, evaluated: the first two processes in directory order. *)
Lemma GetTopProcesses_sample :
  GetTopProcesses (Samples.host None None Samples.proc_entries) Samples.two_slots 2
  = Some (2, {| processIds := [1; 42];
                processNames := ["1"; "42"]%string;
                memoryUsages := [0; 0] |})
  /\ GetTopProcesses (Samples.host None None Samples.proc_entries) Samples.two_slots 0
     = Some (0, Samples.two_slots).
Proof. split; reflexivity. Qed.

End TopProcesses.

(** ** Binary64 arithmetic on the integers the sampler produces *)

Module DoubleFacts.
Import Double.

(** *** Signs *)

Lemma binary_round_aux_sign s m e l :
  has_sign s (binary_round_aux prec emax s m e l).
Proof.
  unfold binary_round_aux.
  destruct (shr_fexp prec emax m e l) as [mrs' e'].
  destruct (shr_fexp prec emax _ e' loc_Exact) as [mrs'' e''].
  destruct (shr_m mrs''); cbn; auto.
  destruct (Z.leb e'' (emax - prec)); cbn; auto.
Qed.

Lemma of_u64_sign n : 0 <= n -> has_sign false (of_u64 n).
Proof.
  intros Hn. unfold of_u64, binary_normalize. destruct n as [|p|p]; [cbn; auto| |lia].
  unfold binary_round. destruct (shl_align _ _ _) as [mz ez].
  apply binary_round_aux_sign.
Qed.

Lemma mul_sign x y :
  has_sign false x -> has_sign false y -> has_sign false (mul x y).
Proof.
  destruct x, y; cbn; intros; subst; cbn; auto.
  apply (binary_round_aux_sign false).
Qed.

Lemma div_sign x y :
  has_sign false x -> has_sign false y -> has_sign false (div x y).
Proof.
  destruct x as [sx|sx| |sx mx ex], y as [sy|sy| |sy my ey]; cbn; intros; subst; cbn; auto.
  destruct (SFdiv_core_binary prec emax (Zpos mx) ex (Zpos my) ey) as [[mz ez] lz].
  apply (binary_round_aux_sign false).
Qed.

Lemma has_sign_false_not_negative x :
  has_sign false x -> ltb x zero = false.
Proof. destruct x; cbn; intros; subst; reflexivity. Qed.

(** *** The number of binary digits *)

Lemma digits2_pos_size p : digits2_pos p = Pos.size p.
Proof. induction p; cbn; congruence. Qed.

Lemma digits2_pos_bounds p :
  2 ^ (Zpos (digits2_pos p) - 1) <= Zpos p < 2 ^ Zpos (digits2_pos p).
Proof.
  rewrite digits2_pos_size. split.
  - pose proof (Pos.size_le p) as H.
    assert (H' : 2 ^ Zpos (Pos.size p) <= 2 * Zpos p).
    { change (2 * Zpos p) with (Zpos p~0). rewrite <- Pos2Z.inj_pow. exact H. }
    replace (Zpos (Pos.size p)) with (Zpos (Pos.size p) - 1 + 1) in H' by lia.
    rewrite Z.pow_add_r in H' by lia. lia.
  - pose proof (Pos.size_gt p) as H.
    rewrite <- Pos2Z.inj_pow. exact H.
Qed.

Lemma digits2_pos_unique p d :
  2 ^ (d - 1) <= Zpos p < 2 ^ d -> Zpos (digits2_pos p) = d.
Proof.
  intros [Hlo Hhi]. pose proof (digits2_pos_bounds p) as [Hlo' Hhi'].
  destruct (Z.lt_trichotomy (Zpos (digits2_pos p)) d) as [Hlt|[Heq|Hgt]]; auto.
  - assert (2 ^ Zpos (digits2_pos p) <= 2 ^ (d - 1))
      by (apply Z.pow_le_mono_r; lia). lia.
  - assert (0 <= d).
    { destruct (Z.lt_ge_cases d 0) as [Hneg|]; auto.
      rewrite (Z.pow_neg_r 2 d) in Hhi by auto. lia. }
    assert (2 ^ d <= 2 ^ (Zpos (digits2_pos p) - 1))
      by (apply Z.pow_le_mono_r; lia). lia.
Qed.

Lemma iter_xO m d : Zpos (Pos.iter xO m d) = Zpos m * 2 ^ Zpos d.
Proof.
  revert m. induction d using Pos.peano_ind; intros m.
  - cbn. lia.
  - rewrite Pos.iter_succ, Pos2Z.inj_succ, Z.pow_succ_r by lia.
    change (Zpos (Pos.iter xO m d)~0) with (2 * Zpos (Pos.iter xO m d)).
    rewrite IHd. ring.
Qed.

(** *** Shifting right a number that ends in zeros *)

Lemma iter_pos_nat {A : Type} (f : A -> A) p x :
  SpecFloat.iter_pos f p x = Nat.iter (Pos.to_nat p) f x.
Proof.
  revert x. induction p as [p IH|p IH|]; intros x; cbn [SpecFloat.iter_pos].
  - rewrite !IH, Pos2Nat.inj_xI.
    replace (S (2 * Pos.to_nat p))%nat with (Pos.to_nat p + (Pos.to_nat p + 1))%nat by lia.
    rewrite !Nat.iter_add. reflexivity.
  - rewrite !IH, Pos2Nat.inj_xO.
    replace (2 * Pos.to_nat p)%nat with (Pos.to_nat p + Pos.to_nat p)%nat by lia.
    rewrite Nat.iter_add. reflexivity.
  - reflexivity.
Qed.

Lemma shr_1_even m : 0 <= m -> shr_1 (exact_record (2 * m)) = exact_record m.
Proof. intros Hm. destruct m as [|p|p]; [reflexivity|reflexivity|lia]. Qed.

Lemma shr_exact_nat n m :
  0 <= m ->
  Nat.iter n shr_1 (exact_record (m * 2 ^ Z.of_nat n)) = exact_record m.
Proof.
  intros Hm. revert m Hm. induction n as [|n IH]; intros m Hm.
  - cbn. f_equal. lia.
  - rewrite Nat.iter_succ_r.
    rewrite Nat2Z.inj_succ, Z.pow_succ_r by lia.
    replace (m * (2 * 2 ^ Z.of_nat n)) with (2 * (m * 2 ^ Z.of_nat n)) by ring.
    rewrite shr_1_even by (apply Z.mul_nonneg_nonneg; [lia|apply Z.pow_nonneg; lia]).
    apply IH. exact Hm.
Qed.

Lemma shr_exact m e k :
  0 <= m -> 0 <= k ->
  shr (exact_record (m * 2 ^ k)) e k = (exact_record m, e + k).
Proof.
  intros Hm Hk. destruct k as [|p|p]; [|clear Hk|lia].
  - cbn. rewrite Z.mul_1_r, Z.add_0_r. reflexivity.
  - cbn [shr]. rewrite iter_pos_nat.
    rewrite <- (positive_nat_Z p) at 1. rewrite shr_exact_nat by exact Hm. reflexivity.
Qed.


Lemma Zdigits2_unique m d :
  0 < m -> 2 ^ (d - 1) <= m < 2 ^ d -> Zdigits2 m = d.
Proof.
  intros Hm Hb. destruct m as [|p|p]; try lia.
  cbn [Zdigits2]. apply digits2_pos_unique. exact Hb.
Qed.

Lemma scaled_bounds M k :
  2 ^ 52 <= M < 2 ^ 53 -> 0 <= k ->
  2 ^ (53 + k - 1) <= M * 2 ^ k < 2 ^ (53 + k).
Proof.
  intros HM Hk.
  replace (53 + k - 1) with (52 + k) by lia.
  rewrite !Z.pow_add_r by lia.
  assert (0 < 2 ^ k) by (apply Z.pow_pos_nonneg; lia).
  split; [apply Z.mul_le_mono_nonneg_r | apply Z.mul_lt_mono_pos_r]; lia.
Qed.

(** A 53-bit number followed by [k] zero bits is rounded to itself. *)
Lemma shr_fexp_exact M k E :
  2 ^ 52 <= M < 2 ^ 53 -> 0 <= k -> -1074 <= E ->
  shr_fexp prec emax (M * 2 ^ k) (E - k) loc_Exact = (exact_record M, E).
Proof.
  intros HM Hk HE. unfold shr_fexp.
  assert (0 < 2 ^ k) by (apply Z.pow_pos_nonneg; lia).
  rewrite (Zdigits2_unique (M * 2 ^ k) (53 + k)).
  - replace (fexp prec emax (53 + k + (E - k)) - (E - k)) with k
      by (unfold fexp, SpecFloat.emin, prec, emax; lia).
    change (shr_record_of_loc (M * 2 ^ k) loc_Exact) with (exact_record (M * 2 ^ k)).
    rewrite shr_exact by lia. f_equal. lia.
  - apply Z.mul_pos_pos; lia.
  - apply scaled_bounds; assumption.
Qed.

Lemma binary_round_aux_exact s M k E :
  2 ^ 52 <= M < 2 ^ 53 -> 0 <= k -> -1074 <= E <= 971 ->
  binary_round_aux prec emax s (M * 2 ^ k) (E - k) loc_Exact
  = S754_finite s (Z.to_pos M) E.
Proof.
  intros HM Hk HE. unfold binary_round_aux.
  rewrite shr_fexp_exact by lia.
  change (round_nearest_even (shr_m (exact_record M))
            (loc_of_shr_record (exact_record M))) with M.
  replace (shr_fexp prec emax M E loc_Exact) with (exact_record M, E).
  - cbn [shr_m exact_record]. destruct M as [|p|p]; try lia.
    replace (E <=? emax - prec) with true; [reflexivity|].
    symmetry. apply Z.leb_le. unfold emax, prec. lia.
  - symmetry. replace M with (M * 2 ^ 0) at 1 by (rewrite Z.pow_0_r; lia).
    replace E with (E - 0) at 1 by lia. apply shr_fexp_exact; lia.
Qed.

Lemma Zdigits2_bounds n :
  0 < n -> 2 ^ (Zdigits2 n - 1) <= n < 2 ^ Zdigits2 n.
Proof. intros Hn. destruct n as [|p|p]; try lia. apply digits2_pos_bounds. Qed.

Lemma Zdigits2_small n : 0 < n < 2 ^ 53 -> 1 <= Zdigits2 n <= 53.
Proof.
  intros Hn. pose proof (Zdigits2_bounds n ltac:(lia)) as [Hlo Hhi].
  destruct n as [|p|p]; try lia. cbn [Zdigits2] in *. split; [lia|].
  destruct (Z.le_gt_cases (Zpos (digits2_pos p)) 53) as [|Hgt]; auto.
  assert (2 ^ 53 <= 2 ^ (Zpos (digits2_pos p) - 1)) by (apply Z.pow_le_mono_r; lia).
  lia.
Qed.

Lemma mantissa_bounds n : 0 < n < 2 ^ 53 -> 2 ^ 52 <= mantissa n < 2 ^ 53.
Proof.
  intros Hn. unfold mantissa.
  pose proof (Zdigits2_small n Hn) as Hd.
  pose proof (Zdigits2_bounds n ltac:(lia)) as [Hlo Hhi].
  set (d := Zdigits2 n) in *.
  assert (Hp : 0 < 2 ^ (53 - d)) by (apply Z.pow_pos_nonneg; lia).
  replace (2 ^ 52) with (2 ^ (d - 1) * 2 ^ (53 - d))
    by (rewrite <- Z.pow_add_r by lia; f_equal; lia).
  replace (2 ^ 53) with (2 ^ d * 2 ^ (53 - d))
    by (rewrite <- Z.pow_add_r by lia; f_equal; lia).
  split; [apply Z.mul_le_mono_nonneg_r | apply Z.mul_lt_mono_pos_r]; lia.
Qed.

Lemma of_u64_exact n :
  0 < n < 2 ^ 53 ->
  of_u64 n = S754_finite false (Z.to_pos (mantissa n)) (exponent n).
Proof.
  intros Hn. pose proof (Zdigits2_small n Hn) as Hd.
  pose proof (mantissa_bounds n Hn) as HM.
  unfold of_u64, binary_normalize. destruct n as [|p|p]; try lia.
  unfold binary_round.
  replace (fexp prec emax (Zpos (digits2_pos p) + 0)) with (exponent (Zpos p))
    by (unfold exponent, fexp, SpecFloat.emin, prec, emax; cbn [Zdigits2] in *; lia).
  assert (Hal : shl_align p 0 (exponent (Zpos p))
                = (Z.to_pos (mantissa (Zpos p)), exponent (Zpos p))).
  { unfold shl_align, mantissa, exponent in *. cbn [Zdigits2] in *.
    rewrite Z.sub_0_r.
    destruct (Zpos (digits2_pos p) - 53) as [|q|q] eqn:E; try lia.
    - replace (53 - Zpos (digits2_pos p)) with 0 by lia.
      rewrite Z.pow_0_r, Z.mul_1_r. reflexivity.
    - replace (53 - Zpos (digits2_pos p)) with (Zpos q) by lia.
      rewrite <- iter_xO. reflexivity. }
  rewrite Hal.
  replace (Zpos (Z.to_pos (mantissa (Zpos p)))) with (mantissa (Zpos p) * 2 ^ 0)
    by (rewrite Z.pow_0_r, Z.mul_1_r, Z2Pos.id; lia).
  replace (exponent (Zpos p)) with (exponent (Zpos p) - 0) at 1 by lia.
  apply binary_round_aux_exact; unfold exponent; cbn [Zdigits2] in *; lia.
Qed.


Lemma Zdigits2_mono a b : 0 < a <= b -> Zdigits2 a <= Zdigits2 b.
Proof.
  intros Hab.
  pose proof (Zdigits2_bounds a ltac:(lia)) as [Hlo _].
  pose proof (Zdigits2_bounds b ltac:(lia)) as [_ Hhi].
  destruct (Z.le_gt_cases (Zdigits2 a) (Zdigits2 b)) as [|Hgt]; auto.
  assert (2 ^ Zdigits2 b <= 2 ^ (Zdigits2 a - 1)) by (apply Z.pow_le_mono_r; lia).
  lia.
Qed.

Lemma Zdigits2_le n k : 0 < n < 2 ^ k -> 0 <= k -> Zdigits2 n <= k.
Proof.
  intros Hn Hk. pose proof (Zdigits2_bounds n ltac:(lia)) as [Hlo _].
  destruct (Z.le_gt_cases (Zdigits2 n) k) as [|Hgt]; auto.
  assert (2 ^ k <= 2 ^ (Zdigits2 n - 1)) by (apply Z.pow_le_mono_r; lia).
  lia.
Qed.

Lemma Zdigits2_pos n : 0 < n -> 1 <= Zdigits2 n.
Proof. intros Hn. destruct n as [|p|p]; try lia. cbn [Zdigits2]. lia. Qed.

(** The mantissa of [100 * b], a multiple of four below [2^55]. *)
Lemma mantissa_hundred_bounds b :
  0 < b -> 100 * b < 2 ^ 55 ->
  2 ^ 52 <= 25 * b * 2 ^ (55 - Zdigits2 (100 * b)) < 2 ^ 53.
Proof.
  intros Hb HN.
  pose proof (Zdigits2_bounds (100 * b) ltac:(lia)) as [Hlo Hhi].
  pose proof (Zdigits2_le (100 * b) 55 ltac:(lia) ltac:(lia)) as Hd.
  pose proof (Zdigits2_pos (100 * b) ltac:(lia)) as Hd1.
  set (d := Zdigits2 (100 * b)) in *.
  assert (Hp : 0 < 2 ^ (55 - d)) by (apply Z.pow_pos_nonneg; lia).
  assert (E1 : 4 * 2 ^ 52 = 2 ^ (d - 1) * 2 ^ (55 - d))
    by (rewrite <- Z.pow_add_r by lia; replace (d - 1 + (55 - d)) with 54 by lia;
        reflexivity).
  assert (E2 : 4 * 2 ^ 53 = 2 ^ d * 2 ^ (55 - d))
    by (rewrite <- Z.pow_add_r by lia; replace (d + (55 - d)) with 55 by lia;
        reflexivity).
  split.
  - assert (2 ^ (d - 1) * 2 ^ (55 - d) <= 100 * b * 2 ^ (55 - d))
      by (apply Z.mul_le_mono_nonneg_r; lia). lia.
  - assert (100 * b * 2 ^ (55 - d) < 2 ^ d * 2 ^ (55 - d))
      by (apply Z.mul_lt_mono_pos_r; lia). lia.
Qed.

(** [b * 100.0] is exact as long as the product is below [2^55]. *)
Lemma mul_hundred_exact b :
  0 < b -> 100 * b < 2 ^ 55 ->
  mul (of_u64 b) hundred
  = S754_finite false (Z.to_pos (25 * b * 2 ^ (55 - Zdigits2 (100 * b))))
                      (Zdigits2 (100 * b) - 53).
Proof.
  intros Hb HN.
  rewrite (of_u64_exact b) by lia.
  pose proof (mantissa_bounds b ltac:(lia)) as HMb.
  pose proof (mantissa_hundred_bounds b Hb HN) as HMN.
  pose proof (Zdigits2_small b ltac:(lia)) as Hdb.
  pose proof (Zdigits2_le (100 * b) 55 ltac:(lia) ltac:(lia)) as HdN.
  pose proof (Zdigits2_mono b (100 * b) ltac:(lia)) as Hmono.
  unfold mul, SFmul, hundred. cbn [xorb].
  set (d := Zdigits2 (100 * b)) in *.
  set (k := 46 + d - Zdigits2 b).
  replace (Zpos (Z.to_pos (mantissa b) * 7036874417766400))
    with (25 * b * 2 ^ (55 - d) * 2 ^ k).
  - replace (exponent b + -46) with (d - 53 - k) by (unfold exponent, k; lia).
    apply binary_round_aux_exact; unfold k; lia.
  - rewrite Pos2Z.inj_mul, Z2Pos.id by lia.
    change (Zpos 7036874417766400) with (25 * 2 ^ 48).
    unfold mantissa, k.
    replace (25 * b * 2 ^ (55 - d) * 2 ^ (46 + d - Zdigits2 b))
      with (25 * b * (2 ^ (55 - d) * 2 ^ (46 + d - Zdigits2 b))) by ring.
    rewrite <- Z.pow_add_r by lia.
    replace (55 - d + (46 + d - Zdigits2 b)) with (53 - Zdigits2 b + 48) by lia.
    rewrite Z.pow_add_r by lia. ring.
Qed.

(** *** Rounding a quotient *)

Lemma loc_excess_range l : 0 <= loc_excess l <= 1.
Proof. destruct l; cbn; lia. Qed.

Lemma loc_of_shr_record_of_loc m l :
  loc_of_shr_record (shr_record_of_loc m l) = l
  /\ shr_m (shr_record_of_loc m l) = m.
Proof. destruct l as [|[| |]]; split; reflexivity. Qed.

Lemma round_nearest_even_bounds m l :
  m <= round_nearest_even m l <= m + loc_excess l.
Proof.
  destruct l as [|[| |]]; cbn [round_nearest_even loc_excess]; try lia.
  destruct (Z.even m); lia.
Qed.

Lemma new_location_excess n r :
  loc_excess (new_location n r) = if r =? 0 then 0 else 1.
Proof.
  unfold new_location, new_location_even, new_location_odd.
  destruct (Z.even n); destruct (r =? 0); reflexivity.
Qed.

(** One step to the right: the mantissa is halved, and it is exact only
    when the dropped bit was [0] and nothing had been lost before. *)
Lemma shr_1_halves q l :
  0 < q ->
  let r := shr_1 (shr_record_of_loc q l) in
  exists b, 0 <= b <= 1
    /\ q = 2 * shr_m r + b
    /\ loc_excess (loc_of_shr_record r) <= b + loc_excess l.
Proof.
  intros Hq. destruct q as [|p|p]; try lia.
  destruct p as [p|p|]; destruct l as [|[| |]]; cbn;
    first [ exists 0; repeat split; lia | exists 1; repeat split; lia ].
Qed.

Lemma binary_round_aux_renormalize s m e l :
  binary_round_aux prec emax s m e l
  = renormalize s
      (round_nearest_even (shr_m (fst (shr_fexp prec emax m e l)))
                          (loc_of_shr_record (fst (shr_fexp prec emax m e l))))
      (snd (shr_fexp prec emax m e l)).
Proof.
  unfold binary_round_aux, renormalize.
  destruct (shr_fexp prec emax m e l) as [mrs' e']. reflexivity.
Qed.

Lemma renormalize_finite m e :
  2 ^ 52 <= m <= 2 ^ 53 -> -1074 <= e <= 970 ->
  exists p j,
    renormalize false m e = S754_finite false p (e + j)
    /\ 2 ^ 52 <= Zpos p < 2 ^ 53
    /\ 0 <= j <= 1
    /\ Zpos p * 2 ^ j = m.
Proof.
  intros Hm He. unfold renormalize.
  destruct (Z.eq_dec m (2 ^ 53)) as [->|Hne].
  - replace (shr_fexp prec emax (2 ^ 53) e loc_Exact) with (exact_record (2 ^ 52), e + 1).
    + exists (Z.to_pos (2 ^ 52)), 1. cbn [shr_m exact_record].
      replace (e + 1 <=? emax - prec) with true
        by (symmetry; apply Z.leb_le; unfold emax, prec; lia).
      split; [reflexivity|]. split; [cbn; lia|]. split; [lia|reflexivity].
    + symmetry. change (2 ^ 53) with (2 ^ 52 * 2 ^ 1).
      replace e with (e + 1 - 1) at 1 by lia. apply shr_fexp_exact; lia.
  - replace (shr_fexp prec emax m e loc_Exact) with (exact_record m, e).
    + destruct m as [|p|p]; try lia. exists p, 0. cbn [shr_m exact_record].
      replace (e <=? emax - prec) with true
        by (symmetry; apply Z.leb_le; unfold emax, prec; lia).
      rewrite Z.add_0_r, Z.pow_0_r, Z.mul_1_r. repeat split; lia.
    + symmetry. replace m with (m * 2 ^ 0) at 1 by (rewrite Z.pow_0_r; lia).
      replace e with (e - 0) at 1 by lia. apply shr_fexp_exact; lia.
Qed.

(** Rounding a mantissa of 53 or 54 bits never goes beyond the next
    multiple of the final unit above the exact value. *)
Lemma binary_round_aux_upper q e l :
  2 ^ 52 <= q < 2 ^ 54 -> -1074 <= e <= 900 ->
  exists p j,
    binary_round_aux prec emax false q e l = S754_finite false p (e + j)
    /\ 2 ^ 52 <= Zpos p < 2 ^ 53
    /\ 0 <= j <= 2
    /\ forall H, q + loc_excess l <= H -> (2 ^ j | H) -> Zpos p * 2 ^ j <= H.
Proof.
  intros Hq He. rewrite binary_round_aux_renormalize.
  destruct (Z.lt_ge_cases q (2 ^ 53)) as [Hlt|Hge].
  - (* 53 bits: nothing is shifted out *)
    assert (Hsh : shr_fexp prec emax q e l = (shr_record_of_loc q l, e)).
    { unfold shr_fexp. rewrite (Zdigits2_unique q 53) by lia.
      replace (fexp prec emax (53 + e) - e) with 0
        by (unfold fexp, SpecFloat.emin, prec, emax; lia).
      reflexivity. }
    rewrite Hsh. cbn [fst snd].
    destruct (loc_of_shr_record_of_loc q l) as [-> ->].
    pose proof (round_nearest_even_bounds q l) as Hr.
    pose proof (loc_excess_range l) as Hx.
    destruct (renormalize_finite (round_nearest_even q l) e) as (p & j & -> & Hp & Hj & Hv);
      [lia|lia|].
    exists p, j. split; [reflexivity|]. split; [exact Hp|]. split; [lia|].
    intros H HH _. rewrite Hv. lia.
  - (* 54 bits: one bit is shifted out *)
    assert (Hsh : shr_fexp prec emax q e l = (shr_1 (shr_record_of_loc q l), e + 1)).
    { unfold shr_fexp. rewrite (Zdigits2_unique q 54) by lia.
      replace (fexp prec emax (54 + e) - e) with 1
        by (unfold fexp, SpecFloat.emin, prec, emax; lia).
      reflexivity. }
    rewrite Hsh. cbn [fst snd].
    destruct (shr_1_halves q l ltac:(lia)) as (b & Hb & Hqb & Hx).
    set (r := shr_1 (shr_record_of_loc q l)) in *.
    pose proof (round_nearest_even_bounds (shr_m r) (loc_of_shr_record r)) as Hr.
    pose proof (loc_excess_range l) as Hxl.
    pose proof (loc_excess_range (loc_of_shr_record r)) as Hxr.
    destruct (renormalize_finite
                (round_nearest_even (shr_m r) (loc_of_shr_record r)) (e + 1))
      as (p & j & -> & Hp & Hj & Hv); [lia|lia|].
    exists p, (j + 1). split; [f_equal; lia|]. split; [exact Hp|]. split; [lia|].
    intros H HH Hdiv.
    rewrite Z.pow_add_r, Z.pow_1_r by lia.
    replace (Zpos p * (2 ^ j * 2)) with (2 * (Zpos p * 2 ^ j)) by ring.
    rewrite Hv.
    assert (Hev : (2 | H)).
    { eapply Z.divide_trans; [|exact Hdiv].
      exists (2 ^ j). rewrite Z.pow_add_r, Z.pow_1_r by lia. ring. }
    destruct Hev as [H' ->]. lia.
Qed.


(** *** The quotient of two integers *)

Lemma leb_finite_hundred p e :
  2 ^ 52 <= Zpos p < 2 ^ 53 ->
  (e < -46 \/ (e = -46 /\ Zpos p <= 100 * 2 ^ 46)) ->
  leb (S754_finite false p e) hundred = true.
Proof.
  intros Hp Hc. unfold leb, SFleb, SFcompare, hundred.
  destruct (Z.compare_spec e (-46)) as [->|Hlt|Hgt]; [|reflexivity|lia].
  destruct Hc as [Hc|[_ Hc]]; [lia|].
  rewrite Pos.compare_cont_spec. cbn [Pos.switch_Eq].
  change (100 * 2 ^ 46) with (Zpos 7036874417766400) in Hc.
  destruct (Pos.compare_spec p 7036874417766400) as [->|Hlt|Hgt]; try reflexivity.
  lia.
Qed.

(** The quotient of two positive doubles whose exact value is at most
    [100] is a finite double that is at most [100.0]. *)
Lemma div_le_hundred M1 E1 M2 E2 :
  2 ^ 52 <= M1 < 2 ^ 53 -> 2 ^ 52 <= M2 < 2 ^ 53 ->
  -52 <= E1 - E2 <= 52 ->
  M1 * 2 ^ 53 <= 100 * 2 ^ (53 - (E1 - E2)) * M2 ->
  exists p e,
    div (S754_finite false (Z.to_pos M1) E1) (S754_finite false (Z.to_pos M2) E2)
    = S754_finite false p e
    /\ leb (S754_finite false p e) hundred = true.
Proof.
  intros HM1 HM2 Hc Hscale.
  unfold div, SFdiv. cbn [xorb].
  rewrite !Z2Pos.id by lia.
  set (e' := E1 - E2 - 53).
  assert (He' : -105 <= e' <= -1) by (unfold e'; lia).
  unfold SFdiv_core_binary.
  rewrite (Zdigits2_unique M1 53), (Zdigits2_unique M2 53) by lia.
  replace (Z.min (fexp prec emax (53 + E1 - (53 + E2))) (E1 - E2)) with e'
    by (unfold fexp, SpecFloat.emin, prec, emax, e' in *; lia).
  replace (E1 - E2 - e') with 53 by (unfold e'; lia).
  cbv iota. rewrite Z.shiftl_mul_pow2 by lia.
  pose proof (Z_div_mod (M1 * 2 ^ 53) M2 ltac:(lia)) as Hdm.
  destruct (Z.div_eucl (M1 * 2 ^ 53) M2) as [q r].
  destruct Hdm as [Hq Hr].
  (* the exact quotient, in units of [2^e'], is at most [100 * 2^(-e')] *)
  set (H := 100 * 2 ^ (- e')).
  replace (53 - (E1 - E2)) with (- e') in Hscale by (unfold e'; lia).
  fold H in Hscale.
  assert (HH : 0 < H) by (unfold H; apply Z.mul_pos_pos; [lia|apply Z.pow_pos_nonneg; lia]).
  assert (Hqlo : 2 ^ 52 <= q) by nia.
  assert (Hqhi : q < 2 ^ 54) by nia.
  assert (HqH : q + loc_excess (new_location M2 r) <= H).
  { rewrite new_location_excess. destruct (Z.eqb_spec r 0); nia. }
  destruct (binary_round_aux_upper q e' (new_location M2 r))
    as (p & j & -> & Hp & Hj & Hup); [lia|lia|].
  exists p, (e' + j). split; [reflexivity|].
  apply leb_finite_hundred; [exact Hp|].
  (* [H] is a multiple of [2^j] *)
  assert (Hj0 : 0 < 2 ^ j) by (apply Z.pow_pos_nonneg; lia).
  assert (Hdiv : (2 ^ j | H)).
  { exists (25 * 2 ^ (2 - e' - j)). unfold H.
    assert (E : 2 ^ (2 - e' - j) * 2 ^ j = 4 * 2 ^ (- e')).
    { rewrite <- Z.pow_add_r by lia.
      replace (2 - e' - j + j) with (2 + - e') by lia.
      rewrite Z.pow_add_r by lia. reflexivity. }
    replace (25 * 2 ^ (2 - e' - j) * 2 ^ j)
      with (25 * (2 ^ (2 - e' - j) * 2 ^ j)) by ring.
    rewrite E. ring. }
  specialize (Hup H HqH Hdiv).
  destruct (Z.lt_trichotomy (e' + j) (-46)) as [Hlt|[Heq|Hgt]].
  - left. exact Hlt.
  - right. split; [exact Heq|].
    unfold H in Hup. replace (- e') with (46 + j) in Hup by lia.
    rewrite Z.pow_add_r in Hup by lia. nia.
  - exfalso.
    assert (Hpw : 2 ^ (- e') <= 2 ^ (45 + j)) by (apply Z.pow_le_mono_r; lia).
    rewrite Z.pow_add_r in Hpw by lia.
    unfold H in Hup. nia.
Qed.

(** [b * 100.0 / t] for integers [0 < b <= t] with [100 * t < 2^55]. *)
Lemma percent_le_hundred b t :
  0 < b <= t -> 100 * t < 2 ^ 55 ->
  exists p e,
    div (mul (of_u64 b) hundred) (of_u64 t) = S754_finite false p e
    /\ leb (S754_finite false p e) hundred = true.
Proof.
  intros Hb Ht.
  rewrite mul_hundred_exact by lia. rewrite (of_u64_exact t) by lia.
  pose proof (mantissa_hundred_bounds b ltac:(lia) ltac:(lia)) as HM1.
  pose proof (mantissa_bounds t ltac:(lia)) as HM2.
  pose proof (Zdigits2_small t ltac:(lia)) as Hdt.
  pose proof (Zdigits2_le (100 * b) 55 ltac:(lia) ltac:(lia)) as HdN.
  pose proof (Zdigits2_pos (100 * b) ltac:(lia)) as HdN1.
  pose proof (Zdigits2_mono (100 * b) (100 * t) ltac:(lia)) as Hmono.
  pose proof (Zdigits2_bounds (100 * b) ltac:(lia)) as [HNlo HNhi].
  pose proof (Zdigits2_bounds t ltac:(lia)) as [Htlo Hthi].
  set (d := Zdigits2 (100 * b)) in *.
  set (dt := Zdigits2 t) in *.
  (* [100 * b] has at most seven digits more than [t] *)
  assert (Hd7 : d <= dt + 7).
  { destruct (Z.le_gt_cases d (dt + 7)) as [|Hgt]; auto.
    assert (2 ^ (dt + 7) <= 2 ^ (d - 1)) by (apply Z.pow_le_mono_r; lia).
    rewrite Z.pow_add_r in * by lia. lia. }
  apply div_le_hundred; unfold exponent; fold dt; try lia.
  unfold mantissa. fold dt.
  assert (HP : 0 < 2 ^ (106 - d)) by (apply Z.pow_pos_nonneg; lia).
  assert (ER : 2 ^ (53 - (d - 53 - (dt - 53))) * 2 ^ (53 - dt) = 2 ^ (106 - d))
    by (rewrite <- Z.pow_add_r by lia; f_equal; lia).
  assert (EL : 2 ^ (55 - d) * 2 ^ 53 = 4 * 2 ^ (106 - d))
    by (change 4 with (2 ^ 2); rewrite <- !Z.pow_add_r by lia; f_equal; lia).
  replace (25 * b * 2 ^ (55 - d) * 2 ^ 53)
    with (25 * b * (2 ^ (55 - d) * 2 ^ 53)) by ring.
  replace (100 * 2 ^ (53 - (d - 53 - (dt - 53))) * (t * 2 ^ (53 - dt)))
    with (100 * t * (2 ^ (53 - (d - 53 - (dt - 53))) * 2 ^ (53 - dt))) by ring.
  rewrite EL, ER. nia.
Qed.

End DoubleFacts.

(** ** GetCpuUsage: the quotient *)

Module CpuPercent.
Import CTypes SystemMonitor Double DoubleFacts CpuBaseline Specification.

Lemma u64_nonneg z : 0 <= u64 z.
Proof. unfold u64. apply Z.mod_pos_bound. lia. Qed.

Lemma u64_small z : 0 <= z < 2 ^ 64 -> u64 z = z.
Proof. intros Hz. unfold u64. apply Z.mod_small. exact Hz. Qed.

Lemma percent_of_sign st t : has_sign false (percent_of st t).
Proof.
  unfold percent_of. apply div_sign.
  - apply mul_sign; [apply of_u64_sign, u64_nonneg | reflexivity].
  - apply of_u64_sign, u64_nonneg.
Qed.

(** No busy tick and no tick at all: [0 * 100.0 / 0] is not a number. *)
Lemma percent_of_no_tick st t :
  total st t = 0 -> all_ticks st t = 0 -> percent_of st t = S754_nan.
Proof. intros Hb Ha. unfold percent_of. rewrite Hb, Ha. reflexivity. Qed.

(** No busy tick but some idle ticks (fewer than [2^53]): [0.0]. *)
Lemma percent_of_idle st t :
  total st t = 0 -> 0 < all_ticks st t < 2 ^ 53 ->
  percent_of st t = zero.
Proof.
  intros Hb Ha. unfold percent_of. rewrite Hb, (of_u64_exact _ Ha). reflexivity.
Qed.

(** C1: when the reading is the stored baseline again (no tick of any
    kind since the last call) and a baseline is stored, the function
    divides [0.0] by [0.0]: the value returned is NaN, not [0]. *)
Theorem GetCpuUsage_no_tick_is_nan
  (h : Host) (locals : CpuTimes) (st : Statics) (file : string) :
  fopen h "/proc/stat" = Some file ->
  lastTotalUser st <> 0 ->
  total st (fscanf_cpu file locals) = 0 ->
  all_ticks st (fscanf_cpu file locals) = 0 ->
  snd (GetCpuUsage h locals st) = S754_nan.
Proof.
  intros Hopen Hnz Hb Ha.
  rewrite (GetCpuUsage_delta h locals st file Hopen Hnz). cbn [snd].
  apply percent_of_no_tick; assumption.
Qed.

(** Two calls within one tick: [/proc/stat] still reads [cpu 10 0 0 100]. *)
Lemma GetCpuUsage_no_tick_is_nan_witness :
  snd (GetCpuUsage (Samples.cpu_host "cpu  10 0 0 100") Samples.some_locals
                   Samples.after_10_0_0_100) = S754_nan.
Proof.
  apply (GetCpuUsage_no_tick_is_nan
           (Samples.cpu_host "cpu  10 0 0 100") Samples.some_locals
           Samples.after_10_0_0_100 "cpu  10 0 0 100").
  - reflexivity.
  - cbn. lia.
  - reflexivity.
  - reflexivity.
Defined.

(** C2, as the claim has it, fails: after [cpu 10 0 0 100] the counters
    restart and read [cpu 5 0 0 200].  With the negative user delta
    clamped to [0] the result would be [0.0]; the code subtracts in
    [unsigned long long], gets [2^64 - 5] busy ticks out of [95], and
    returns about [1.94e19]. *)
Lemma GetCpuUsage_restart_not_clamped :
  let st := Samples.after_10_0_0_100 in
  let h := Samples.cpu_host "cpu  5 0 0 200" in
  let t := fscanf_cpu "cpu  5 0 0 200" Samples.some_locals in
  totalUser t < lastTotalUser st
  /\ Specification.SampleCpuUtilization st t = zero
  /\ total st t = 2 ^ 64 - 5
  /\ snd (GetCpuUsage h Samples.some_locals st)
     = S754_finite false 4740631186705785 12
  /\ snd (GetCpuUsage h Samples.some_locals st)
     <> Specification.SampleCpuUtilization st t.
Proof.
  cbv zeta. split; [vm_compute; reflexivity|]. split; [reflexivity|].
  split; [reflexivity|]. split; [vm_compute; reflexivity|].
  vm_compute. discriminate.
Qed.

Lemma total_mod st t : total st t = elapsed_busy st t mod 2 ^ 64.
Proof.
  unfold total, elapsed_busy, u64.
  set (a := totalUser t - lastTotalUser st).
  set (b := totalUserLow t - lastTotalUserLow st).
  set (c := totalSys t - lastTotalSys st).
  rewrite <- (Z.add_mod a b) by lia. rewrite <- (Z.add_mod (a + b) c) by lia.
  reflexivity.
Qed.

Lemma all_ticks_mod st t : all_ticks st t = elapsed st t mod 2 ^ 64.
Proof.
  unfold all_ticks, elapsed. rewrite total_mod. unfold u64.
  rewrite <- (Z.add_mod (elapsed_busy st t) (totalIdle t - lastTotalIdle st)) by lia.
  reflexivity.
Qed.

(** C2, amended: no delta is clamped.  The busy and the total tick
    counts are the differences with the stored baseline modulo [2^64], so
    a counter that restarted below its baseline contributes a large
    positive delta; the value returned is nevertheless never below zero,
    for any host, any stored state and any content of [/proc/stat]. *)
Theorem GetCpuUsage_never_negative (h : Host) (locals : CpuTimes) (st : Statics) :
  ltb (snd (GetCpuUsage h locals st)) zero = false
  /\ match fopen h "/proc/stat" with
     | Some file =>
         let t := fscanf_cpu file locals in
         snd (GetCpuUsage h locals st)
         = if lastTotalUser st =? 0 then zero
           else div (mul (of_u64 (elapsed_busy st t mod 2 ^ 64)) hundred)
                    (of_u64 (elapsed st t mod 2 ^ 64))
     | None => snd (GetCpuUsage h locals st) = zero
     end.
Proof.
  split.
  - apply has_sign_false_not_negative. unfold GetCpuUsage.
    destruct (fopen h "/proc/stat") as [file|]; [|reflexivity].
    destruct (lastTotalUser (InitializePerfCounters st) =? 0); [reflexivity|].
    cbn [snd]. apply percent_of_sign.
  - destruct (fopen h "/proc/stat") as [file|] eqn:Hopen.
    + cbv zeta. destruct (Z.eqb_spec (lastTotalUser st) 0) as [Hz|Hnz].
      * rewrite (GetCpuUsage_sentinel h locals st file Hopen Hz). reflexivity.
      * rewrite (GetCpuUsage_delta h locals st file Hopen Hnz). cbn [snd].
        unfold percent_of. rewrite total_mod, all_ticks_mod. reflexivity.
    + rewrite (GetCpuUsage_unreadable h locals st Hopen). reflexivity.
Qed.

(** Without wrap-around the two [unsigned long long] sums are the
    integer sums. *)
Lemma ticks_without_wrap st t :
  non_decreasing st t -> elapsed st t < 2 ^ 64 ->
  total st t = elapsed_busy st t /\ all_ticks st t = elapsed st t.
Proof.
  intros (Hu & Hl & Hs & Hi) Hlt.
  unfold all_ticks, total, elapsed, elapsed_busy in *.
  rewrite (u64_small (totalUser t - lastTotalUser st)) by lia.
  rewrite (u64_small (totalUserLow t - lastTotalUserLow st)) by lia.
  rewrite (u64_small (totalSys t - lastTotalSys st)) by lia.
  rewrite (u64_small (totalIdle t - lastTotalIdle st)) by lia.
  rewrite (u64_small (totalUser t - lastTotalUser st
                      + (totalUserLow t - lastTotalUserLow st))) by lia.
  rewrite (u64_small (totalUser t - lastTotalUser st
                      + (totalUserLow t - lastTotalUserLow st)
                      + (totalSys t - lastTotalSys st))) by lia.
  rewrite (u64_small (totalUser t - lastTotalUser st
                      + (totalUserLow t - lastTotalUserLow st)
                      + (totalSys t - lastTotalSys st)
                      + (totalIdle t - lastTotalIdle st))) by lia.
  auto.
Qed.

Lemma percent_of_in_range st t :
  non_decreasing st t ->
  0 < elapsed st t -> 100 * elapsed st t < 2 ^ 55 ->
  leb zero (percent_of st t) = true /\ leb (percent_of st t) hundred = true.
Proof.
  intros Hnd Hpos Hbound.
  destruct (ticks_without_wrap st t Hnd ltac:(lia)) as [Hb Ha].
  assert (Hbusy : 0 <= elapsed_busy st t <= elapsed st t).
  { destruct Hnd as (Hu & Hl & Hs & Hi). unfold elapsed, elapsed_busy in *. lia. }
  unfold percent_of. rewrite Hb, Ha.
  destruct (Z.eq_dec (elapsed_busy st t) 0) as [->|Hnz].
  - rewrite (of_u64_exact (elapsed st t)) by lia. split; reflexivity.
  - destruct (percent_le_hundred (elapsed_busy st t) (elapsed st t))
      as (p & e & -> & Hle); try lia.
    split; [reflexivity|exact Hle].
Qed.

(** C6, as the claim has it, fails for readings none of whose components
    decreases: when no tick at all has elapsed the result is NaN, and
    when 360287970189643 busy ticks (and nothing else) have elapsed,
    a hundred times which is just above [2^55], the product with [100.0]
    is rounded up and the result is [100.00000000000001]. *)
Lemma GetCpuUsage_non_decreasing_out_of_range :
  let st := Samples.after_10_0_0_100 in
  let same := "cpu  10 0 0 100"%string in
  let late := "cpu  360287970189653 0 0 100"%string in
  (non_decreasing st (fscanf_cpu same Samples.some_locals)
   /\ snd (GetCpuUsage (Samples.cpu_host same) Samples.some_locals st) = S754_nan
   /\ leb (snd (GetCpuUsage (Samples.cpu_host same) Samples.some_locals st))
          hundred = false)
  /\ (non_decreasing st (fscanf_cpu late Samples.some_locals)
      /\ snd (GetCpuUsage (Samples.cpu_host late) Samples.some_locals st)
         = S754_finite false 7036874417766401 (-46)
      /\ leb (snd (GetCpuUsage (Samples.cpu_host late) Samples.some_locals st))
             hundred = false).
Proof.
  cbv zeta. split; (split; [|split]).
  - unfold non_decreasing. vm_compute. repeat split; discriminate.
  - vm_compute. reflexivity.
  - vm_compute. reflexivity.
  - unfold non_decreasing. vm_compute. repeat split; discriminate.
  - vm_compute. reflexivity.
  - vm_compute. reflexivity.
Qed.

(** C6, amended: when no component of the reading is below the stored
    baseline, at least one tick has elapsed in total, and a hundred times
    the elapsed ticks is below [2^55] (so that neither the integer sums
    nor the product with [100.0] lose anything), the value returned is a
    double between [0.0] and [100.0]. *)
Theorem GetCpuUsage_percent_in_range
  (h : Host) (locals : CpuTimes) (st : Statics) (file : string) :
  fopen h "/proc/stat" = Some file ->
  non_decreasing st (fscanf_cpu file locals) ->
  0 < elapsed st (fscanf_cpu file locals) ->
  100 * elapsed st (fscanf_cpu file locals) < 2 ^ 55 ->
  leb zero (snd (GetCpuUsage h locals st)) = true
  /\ leb (snd (GetCpuUsage h locals st)) hundred = true.
Proof.
  intros Hopen Hnd Hpos Hbound.
  destruct (Z.eq_dec (lastTotalUser st) 0) as [Hz|Hnz].
  - rewrite (GetCpuUsage_sentinel h locals st file Hopen Hz). split; reflexivity.
  - rewrite (GetCpuUsage_delta h locals st file Hopen Hnz). cbn [snd].
    apply percent_of_in_range; assumption.
Qed.

(** From [cpu 10 0 0 100] to [cpu 20 0 0 110]: ten busy ticks out of
    twenty. *)
Lemma GetCpuUsage_percent_in_range_witness :
  let h := Samples.cpu_host "cpu  20 0 0 110" in
  let st := Samples.after_10_0_0_100 in
  leb zero (snd (GetCpuUsage h Samples.some_locals st)) = true
  /\ leb (snd (GetCpuUsage h Samples.some_locals st)) hundred = true.
Proof.
  apply (GetCpuUsage_percent_in_range
           (Samples.cpu_host "cpu  20 0 0 110") Samples.some_locals
           Samples.after_10_0_0_100 "cpu  20 0 0 110").
  - reflexivity.
  - unfold non_decreasing. vm_compute. repeat split; discriminate.
  - vm_compute. reflexivity.
  - vm_compute. reflexivity.
Defined.

(** The same call, evaluated: [50.0]. *)
Lemma GetCpuUsage_half_busy :
  snd (GetCpuUsage (Samples.cpu_host "cpu  20 0 0 110") Samples.some_locals
                   Samples.after_10_0_0_100)
  = S754_finite false 7036874417766400 (-47).
Proof. vm_compute. reflexivity. Qed.

End CpuPercent.

(** ** GetNetworkStats *)

Module NetworkStats.
Import CTypes Scanf SystemMonitor Specification.

Lemma file_lines_unfold file :
  file_lines file
  = match fgets 256 file with
    | None => []
    | Some (line, rest) => line :: file_lines rest
    end.
Proof.
  funelim (file_lines file).
  - rewrite e. reflexivity.
  - rewrite e. reflexivity.
Qed.

Lemma read_interfaces_unfold file rx tx :
  read_interfaces file rx tx
  = match fgets 256 file with
    | None => (rx, tx)
    | Some (line, rest) =>
        let r := sscanf_netdev (c_str line) in
        if assigned r =? 3 then
          if negb (strcmp_eq (interface r) "lo") then
            read_interfaces rest (s64 (rx + rx_bytes r)) (s64 (tx + tx_bytes r))
          else read_interfaces rest rx tx
        else read_interfaces rest rx tx
    end.
Proof.
  funelim (read_interfaces file rx tx).
  - rewrite e. reflexivity.
  - rewrite e. reflexivity.
Qed.

Lemma s64_idem z : s64 (s64 z) = s64 z.
Proof.
  unfold s64. replace (((z + 2 ^ 63) mod 2 ^ 64 - 2 ^ 63) + 2 ^ 63)
    with ((z + 2 ^ 63) mod 2 ^ 64) by lia.
  rewrite Z.mod_mod by lia. reflexivity.
Qed.

Lemma s64_add_l a b : s64 (s64 a + b) = s64 (a + b).
Proof.
  unfold s64. f_equal.
  replace ((a + 2 ^ 63) mod 2 ^ 64 - 2 ^ 63 + b + 2 ^ 63)
    with ((a + 2 ^ 63) mod 2 ^ 64 + b) by lia.
  rewrite Z.add_mod_idemp_l by lia. f_equal. lia.
Qed.

Lemma scan_lines_unfold stream :
  scan_lines stream
  = match fgets 256 stream with
    | None => []
    | Some (line, rest) =>
        let r := sscanf_netdev (c_str line) in
        if assigned r =? 3 then r :: scan_lines rest else scan_lines rest
    end.
Proof.
  unfold scan_lines. rewrite file_lines_unfold.
  destruct (fgets 256 stream) as [[line rest]|]; reflexivity.
Qed.

(** The loop adds up, modulo [2^64], the counters of the lines that scan
    completely and whose name is not ["lo"]. *)
Lemma read_interfaces_sums :
  forall (n : nat) (stream : string) (rx tx : Z),
    (String.length stream <= n)%nat ->
    read_interfaces stream (s64 rx) (s64 tx)
    = (s64 (rx + sum_rx (counted (scan_lines stream))),
       s64 (tx + sum_tx (counted (scan_lines stream)))).
Proof.
  induction n as [|n IH]; intros stream rx tx Hlen;
    rewrite read_interfaces_unfold, scan_lines_unfold.
  - destruct stream; [|cbn in Hlen; lia]. cbn. rewrite !Z.add_0_r. reflexivity.
  - destruct (fgets 256 stream) as [[line rest]|] eqn:Hget.
    + pose proof (fgets_shorter _ _ _ Hget) as Hshort.
      cbv zeta. destruct (assigned (sscanf_netdev (c_str line)) =? 3).
      * unfold counted at 1 2. cbn [List.filter]. unfold strcmp_eq.
        destruct (String.eqb (interface (sscanf_netdev (c_str line))) "lo");
          cbn [negb].
        -- apply IH. lia.
        -- rewrite !s64_add_l. rewrite IH by lia.
           unfold sum_rx, sum_tx. cbn [map fold_right].
           fold (counted (scan_lines rest)). f_equal; f_equal; lia.
      * apply IH. lia.
    + cbn. rewrite !Z.add_0_r. reflexivity.
Qed.

(** Whatever the two cells held, a call that can open [/proc/net/dev]
    leaves the cumulative totals of that read in them. *)
Lemma GetNetworkStats_totals h file rx0 tx0 :
  fopen h "/proc/net/dev" = Some file ->
  GetNetworkStats h rx0 tx0
  = (1, fst (cumulative_totals file), snd (cumulative_totals file)).
Proof.
  intros Hopen. unfold GetNetworkStats. rewrite Hopen.
  change 0 with (s64 0) at 1 2.
  rewrite (read_interfaces_sums
             (String.length (skip_line (skip_line file))) _ 0 0 (le_n _)).
  reflexivity.
Qed.

(** C3, as the claim has it, fails: on a first call with [eth0] at
    100/50 bytes the function returns 100 and 50, not zeros, and on the
    next call, with [eth0] at 160/80, it returns 160 and 80, not the
    difference 60 and 30. *)
Lemma GetNetworkStats_not_baseline_delta : ~ first_call_returns_baseline.
Proof.
  intros Hclaim.
  destruct (Hclaim (Samples.net_host Samples.netdev_plain)
                   (Samples.net_host Samples.netdev_plain_later)
                   Samples.netdev_plain Samples.netdev_plain_later 0 0
                   eq_refl eq_refl) as [Hfirst _].
  vm_compute in Hfirst. discriminate Hfirst.
Qed.

(** C3, amended: [GetNetworkStats] keeps no previous reading.  Every
    call that can open [/proc/net/dev], the first of a process included,
    resets the two cells and returns the cumulative totals of the read it
    made itself; a second call returns the totals of the second read, not
    a difference with the first. *)
Theorem GetNetworkStats_returns_cumulative_totals
  (h1 h2 : Host) (file1 file2 : string) (rx0 tx0 : Z) :
  fopen h1 "/proc/net/dev" = Some file1 ->
  fopen h2 "/proc/net/dev" = Some file2 ->
  let rx1 := fst (cumulative_totals file1) in
  let tx1 := snd (cumulative_totals file1) in
  GetNetworkStats h1 rx0 tx0 = (1, rx1, tx1)
  /\ GetNetworkStats h2 rx1 tx1
     = (1, fst (cumulative_totals file2), snd (cumulative_totals file2)).
Proof.
  intros Ho1 Ho2. cbv zeta. split; apply GetNetworkStats_totals; assumption.
Qed.

Lemma GetNetworkStats_returns_cumulative_totals_witness :
  GetNetworkStats (Samples.net_host Samples.netdev_plain) 7 7 = (1, 100, 50)
  /\ GetNetworkStats (Samples.net_host Samples.netdev_plain_later) 100 50
     = (1, 160, 80).
Proof.
  exact (GetNetworkStats_returns_cumulative_totals
           (Samples.net_host Samples.netdev_plain)
           (Samples.net_host Samples.netdev_plain_later)
           Samples.netdev_plain Samples.netdev_plain_later 7 7
           eq_refl eq_refl).
Defined.

(** A line whose name field is exactly ["lo"] does not count. *)
Lemma GetNetworkStats_plain_sample :
  GetNetworkStats (Samples.net_host Samples.netdev_plain) 0 0 = (1, 100, 50).
Proof. vm_compute. reflexivity. Qed.

(** C4: in the layout Linux gives [/proc/net/dev] the name is padded on
    the left; [%31[^:]] keeps the padding, the name scanned for the
    loopback line is ["    lo"], [strcmp] with ["lo"] is not [0], and the
    999 bytes of the loopback interface are added to both totals. *)
Theorem GetNetworkStats_counts_padded_loopback :
  interface (sscanf_netdev "    lo: 999 9 0 0 0 0 0 0 999 9 0 0 0 0 0 0")
  = "    lo"%string
  /\ GetNetworkStats (Samples.net_host Samples.netdev_linux) 0 0
     = (1, 1099, 1049).
Proof. split; vm_compute; reflexivity. Qed.

End NetworkStats.

(** ** Binary64: quotients that are whole numbers *)

Module DoubleQuotient.
Import Double DoubleFacts.

(** A quotient of mantissas that is itself a 53-bit number followed by
    zeros is not rounded. *)
Lemma div_exact M1 E1 M2 E2 Mq k :
  2 ^ 52 <= M1 < 2 ^ 53 -> 2 ^ 52 <= M2 < 2 ^ 53 -> 2 ^ 52 <= Mq < 2 ^ 53 ->
  0 <= k -> -52 <= E1 - E2 <= 52 ->
  M1 * 2 ^ 53 = Mq * 2 ^ k * M2 ->
  div (S754_finite false (Z.to_pos M1) E1) (S754_finite false (Z.to_pos M2) E2)
  = S754_finite false (Z.to_pos Mq) (E1 - E2 - 53 + k).
Proof.
  intros HM1 HM2 HMq Hk Hc Heq.
  assert (Hk1 : k <= 1).
  { destruct (Z.le_gt_cases k 1) as [|Hgt]; auto.
    assert (2 ^ 2 <= 2 ^ k) by (apply Z.pow_le_mono_r; lia).
    change (2 ^ 2) with 4 in *. nia. }
  unfold div, SFdiv. cbn [xorb].
  rewrite !Z2Pos.id by lia.
  set (e' := E1 - E2 - 53).
  unfold SFdiv_core_binary.
  rewrite (Zdigits2_unique M1 53), (Zdigits2_unique M2 53) by lia.
  replace (Z.min (fexp prec emax (53 + E1 - (53 + E2))) (E1 - E2)) with e'
    by (unfold fexp, SpecFloat.emin, prec, emax, e' in *; lia).
  replace (E1 - E2 - e') with 53 by (unfold e'; lia).
  cbv iota. rewrite Z.shiftl_mul_pow2 by lia.
  assert (Hk0 : 0 < 2 ^ k) by (apply Z.pow_pos_nonneg; lia).
  assert (Hdm : Z.div_eucl (M1 * 2 ^ 53) M2 = (Mq * 2 ^ k, 0)).
  { pose proof (Z_div_mod (M1 * 2 ^ 53) M2 ltac:(lia)) as H.
    destruct (Z.div_eucl (M1 * 2 ^ 53) M2) as [q r]. destruct H as [Hq Hr].
    assert (q = Mq * 2 ^ k) by nia. f_equal; nia. }
  rewrite Hdm.
  replace (new_location M2 0) with loc_Exact
    by (unfold new_location; destruct (Z.even M2); reflexivity).
  replace e' with (e' + k - k) at 1 by lia.
  apply binary_round_aux_exact; unfold e'; lia.
Qed.

(** [b * 100.0 / t] when [100 * b / t] is the whole number [q]. *)
Lemma percent_whole b t q :
  0 < b <= t -> 100 * t < 2 ^ 55 -> 100 * b = q * t ->
  div (mul (of_u64 b) hundred) (of_u64 t) = of_u64 q.
Proof.
  intros Hb Ht Hq.
  assert (Hq0 : 0 < q <= 100) by nia.
  rewrite mul_hundred_exact by lia.
  rewrite (of_u64_exact t), (of_u64_exact q) by lia.
  pose proof (mantissa_hundred_bounds b ltac:(lia) ltac:(lia)) as HM1.
  pose proof (mantissa_bounds t ltac:(lia)) as HM2.
  pose proof (mantissa_bounds q ltac:(lia)) as HMq.
  pose proof (Zdigits2_small t ltac:(lia)) as Hdt.
  pose proof (Zdigits2_small q ltac:(lia)) as Hdq.
  pose proof (Zdigits2_le (100 * b) 55 ltac:(lia) ltac:(lia)) as HdN.
  pose proof (Zdigits2_pos (100 * b) ltac:(lia)) as HdN1.
  pose proof (Zdigits2_bounds (100 * b) ltac:(lia)) as [HNlo HNhi].
  pose proof (Zdigits2_bounds t ltac:(lia)) as [Htlo Hthi].
  pose proof (Zdigits2_bounds q ltac:(lia)) as [Hqlo Hqhi].
  unfold mantissa, exponent in *.
  set (d := Zdigits2 (100 * b)) in *.
  set (dt := Zdigits2 t) in *.
  set (dq := Zdigits2 q) in *.
  (* [q * t] has at most as many digits as [q] and [t] together *)
  assert (Hsum : d <= dq + dt).
  { apply Zdigits2_le; [|lia]. rewrite Hq. rewrite Z.pow_add_r by lia. nia. }
  (* and at most seven more than [t] *)
  assert (Hd7 : d <= dt + 7).
  { destruct (Z.le_gt_cases d (dt + 7)) as [|Hgt]; auto.
    assert (2 ^ (dt + 7) <= 2 ^ (d - 1)) by (apply Z.pow_le_mono_r; lia).
    rewrite Z.pow_add_r in * by lia. lia. }
  replace (dq - 53) with (d - 53 - (dt - 53) - 53 + (dq + dt - d)) by lia.
  apply div_exact; try lia.
  assert (EL : 2 ^ (55 - d) * 2 ^ 53 = 4 * 2 ^ (106 - d))
    by (change 4 with (2 ^ 2); rewrite <- !Z.pow_add_r by lia; f_equal; lia).
  assert (ER : 2 ^ (53 - dq) * 2 ^ (dq + dt - d) * 2 ^ (53 - dt) = 2 ^ (106 - d))
    by (rewrite <- !Z.pow_add_r by lia; f_equal; lia).
  replace (25 * b * 2 ^ (55 - d) * 2 ^ 53)
    with (25 * b * (2 ^ (55 - d) * 2 ^ 53)) by ring.
  replace (q * 2 ^ (53 - dq) * 2 ^ (dq + dt - d) * (t * 2 ^ (53 - dt)))
    with (q * t * (2 ^ (53 - dq) * 2 ^ (dq + dt - d) * 2 ^ (53 - dt))) by ring.
  rewrite EL, ER, <- Hq. ring.
Qed.

End DoubleQuotient.

(** ** GetCpuUsage: sequences of calls and exact results *)

Module CpuSequences.
Import CTypes SystemMonitor Double DoubleFacts DoubleQuotient.
Import CpuBaseline CpuPercent Specification.

Lemma InitializePerfCounters_idem st :
  InitializePerfCounters (InitializePerfCounters st) = InitializePerfCounters st.
Proof.
  unfold InitializePerfCounters at 1.
  rewrite InitializePerfCounters_done. reflexivity.
Qed.

Lemma GetCpuUsage_initialized h locals st :
  GetCpuUsage h locals (InitializePerfCounters st) = GetCpuUsage h locals st.
Proof. unfold GetCpuUsage. rewrite InitializePerfCounters_idem. reflexivity. Qed.

Lemma store_last_initialized st st' t :
  store_last (InitializePerfCounters st) t = store_last (InitializePerfCounters st') t.
Proof. unfold store_last. rewrite !InitializePerfCounters_done. reflexivity. Qed.

(** X1: a call that cannot open [/proc/stat] leaves no trace: the next
    call returns, and stores, exactly what it would have without it. *)
Theorem GetCpuUsage_failed_read_is_invisible
  (h1 h2 : Host) (locals1 locals2 : CpuTimes) (st : Statics) :
  fopen h1 "/proc/stat" = None ->
  GetCpuUsage h2 locals2 (fst (GetCpuUsage h1 locals1 st))
  = GetCpuUsage h2 locals2 st.
Proof.
  intros Hfail. rewrite (GetCpuUsage_unreadable h1 locals1 st Hfail). cbn [fst].
  apply GetCpuUsage_initialized.
Qed.

Lemma GetCpuUsage_failed_read_is_invisible_witness :
  GetCpuUsage (Samples.cpu_host "cpu  20 0 0 110") Samples.some_locals
              (fst (GetCpuUsage (Samples.host None None []) Samples.some_locals
                                Samples.after_10_0_0_100))
  = GetCpuUsage (Samples.cpu_host "cpu  20 0 0 110") Samples.some_locals
                Samples.after_10_0_0_100.
Proof.
  apply (GetCpuUsage_failed_read_is_invisible
           (Samples.host None None []) (Samples.cpu_host "cpu  20 0 0 110")
           Samples.some_locals Samples.some_locals Samples.after_10_0_0_100).
  reflexivity.
Defined.

(** X2: the outcome of a call depends on the calls before it only through
    the last reading that was scanned: after a call that read
    [/proc/stat], the next call returns and stores what it would in a
    process whose only history is that reading. *)
Theorem GetCpuUsage_depends_on_last_reading
  (h1 h2 : Host) (locals1 locals2 : CpuTimes) (st : Statics) (file1 : string) :
  fopen h1 "/proc/stat" = Some file1 ->
  GetCpuUsage h2 locals2 (fst (GetCpuUsage h1 locals1 st))
  = GetCpuUsage h2 locals2 (store_last process_start (fscanf_cpu file1 locals1)).
Proof.
  intros Hopen.
  assert (Hst : fst (GetCpuUsage h1 locals1 st)
                = store_last (InitializePerfCounters st) (fscanf_cpu file1 locals1)).
  { destruct (Z.eq_dec (lastTotalUser st) 0) as [Hz|Hnz].
    - rewrite (GetCpuUsage_sentinel h1 locals1 st file1 Hopen Hz). reflexivity.
    - rewrite (GetCpuUsage_delta h1 locals1 st file1 Hopen Hnz). reflexivity. }
  rewrite Hst. unfold GetCpuUsage.
  replace (InitializePerfCounters
             (store_last (InitializePerfCounters st) (fscanf_cpu file1 locals1)))
    with (InitializePerfCounters
            (store_last process_start (fscanf_cpu file1 locals1)));
    [reflexivity|].
  unfold InitializePerfCounters, store_last.
  destruct (perfCountersInitialized st) eqn:E; cbn; rewrite ?E; reflexivity.
Qed.

Lemma GetCpuUsage_depends_on_last_reading_witness :
  GetCpuUsage (Samples.cpu_host "cpu  20 0 0 110") Samples.some_locals
              (fst (GetCpuUsage (Samples.cpu_host "cpu  10 0 0 100")
                                Samples.some_locals
                                (store_last process_start Samples.some_locals)))
  = GetCpuUsage (Samples.cpu_host "cpu  20 0 0 110") Samples.some_locals
                (store_last process_start
                   (fscanf_cpu "cpu  10 0 0 100" Samples.some_locals)).
Proof.
  apply (GetCpuUsage_depends_on_last_reading
           (Samples.cpu_host "cpu  10 0 0 100") (Samples.cpu_host "cpu  20 0 0 110")
           Samples.some_locals Samples.some_locals
           (store_last process_start Samples.some_locals) "cpu  10 0 0 100").
  reflexivity.
Defined.

(** X3: what [fscanf] matched is never looked at.  When [/proc/stat] does
    not begin with [cpu] (an empty file, for one) nothing is scanned and
    the four statics hold the content of the four uninitialised locals
    after the call. *)
Theorem GetCpuUsage_stores_unscanned_locals
  (h : Host) (locals : CpuTimes) (st : Statics) (file : string) :
  fopen h "/proc/stat" = Some file ->
  Scanf.match_literal "cpu" file = None ->
  fst (GetCpuUsage h locals st)
  = {| perfCountersInitialized := true;
       lastTotalUser := totalUser locals;
       lastTotalUserLow := totalUserLow locals;
       lastTotalSys := totalSys locals;
       lastTotalIdle := totalIdle locals |}.
Proof.
  intros Hopen Hlit.
  assert (Ht : fscanf_cpu file locals = locals)
    by (unfold fscanf_cpu; rewrite Hlit; reflexivity).
  destruct (Z.eq_dec (lastTotalUser st) 0) as [Hz|Hnz].
  - rewrite (GetCpuUsage_sentinel h locals st file Hopen Hz), Ht.
    unfold store_last. rewrite InitializePerfCounters_done. reflexivity.
  - rewrite (GetCpuUsage_delta h locals st file Hopen Hnz), Ht.
    unfold store_last. rewrite InitializePerfCounters_done. reflexivity.
Qed.

(** An empty [/proc/stat] while the locals hold 41, 42, 43 and 44. *)
Lemma GetCpuUsage_stores_unscanned_locals_witness :
  fst (GetCpuUsage (Samples.cpu_host "") Samples.some_locals process_start)
  = {| perfCountersInitialized := true;
       lastTotalUser := 41; lastTotalUserLow := 42;
       lastTotalSys := 43; lastTotalIdle := 44 |}.
Proof.
  apply (GetCpuUsage_stores_unscanned_locals
           (Samples.cpu_host "") Samples.some_locals process_start "");
    reflexivity.
Defined.

(** X4: when the busy share of the elapsed ticks is a whole number [q] of
    percent, the double returned is exactly [q]: [0.0] for an idle
    interval, [100.0] for an interval without idle ticks. *)
Theorem GetCpuUsage_whole_percent
  (h : Host) (locals : CpuTimes) (st : Statics) (file : string) (q : Z) :
  fopen h "/proc/stat" = Some file ->
  lastTotalUser st <> 0 ->
  non_decreasing st (fscanf_cpu file locals) ->
  0 < elapsed st (fscanf_cpu file locals) ->
  100 * elapsed st (fscanf_cpu file locals) < 2 ^ 55 ->
  100 * elapsed_busy st (fscanf_cpu file locals)
  = q * elapsed st (fscanf_cpu file locals) ->
  snd (GetCpuUsage h locals st) = of_u64 q.
Proof.
  intros Hopen Hnz Hnd Hpos Hbound Hq.
  rewrite (GetCpuUsage_delta h locals st file Hopen Hnz). cbn [snd].
  set (t := fscanf_cpu file locals) in *.
  destruct (ticks_without_wrap st t Hnd ltac:(lia)) as [Hb Ha].
  assert (Hbusy : 0 <= elapsed_busy st t <= elapsed st t).
  { destruct Hnd as (Hu & Hl & Hs & Hi). unfold elapsed, elapsed_busy in *. lia. }
  unfold percent_of. rewrite Hb, Ha.
  destruct (Z.eq_dec (elapsed_busy st t) 0) as [Hz|Hnz'].
  - rewrite Hz in *. assert (q = 0) by nia. subst q.
    rewrite (of_u64_exact (elapsed st t)) by lia. reflexivity.
  - apply percent_whole; lia.
Qed.

(** Ten busy ticks out of twenty: exactly [50.0]. *)
Lemma GetCpuUsage_whole_percent_witness :
  snd (GetCpuUsage (Samples.cpu_host "cpu  20 0 0 110") Samples.some_locals
                   Samples.after_10_0_0_100) = of_u64 50.
Proof.
  apply (GetCpuUsage_whole_percent
           (Samples.cpu_host "cpu  20 0 0 110") Samples.some_locals
           Samples.after_10_0_0_100 "cpu  20 0 0 110" 50).
  - reflexivity.
  - cbn. lia.
  - unfold non_decreasing. vm_compute. repeat split; discriminate.
  - vm_compute. reflexivity.
  - vm_compute. reflexivity.
  - vm_compute. reflexivity.
Defined.

End CpuSequences.

(** ** GetNetworkStats: the file as a list of lines *)

Module NetworkLines.
Import CTypes Scanf SystemMonitor SystemMonitorRest Specification NetworkStats.

Lemma fgets_chars_whole_line l rest room :
  ends_line l = true -> (String.length l <= room)%nat ->
  fgets_chars room (l ++ rest) = (l, rest).
Proof.
  revert room. induction l as [|c l IH]; intros room Hend Hlen; [discriminate|].
  destruct room as [|room]; [cbn in Hlen; lia|].
  cbn [String.append fgets_chars]. cbn [ends_line] in Hend.
  destruct l as [|c' l].
  - rewrite Hend. reflexivity.
  - apply andb_true_iff in Hend as [Hc Hend].
    apply negb_true_iff in Hc. rewrite Hc.
    rewrite IH; [reflexivity|exact Hend|cbn in *; lia].
Qed.

Lemma fgets_whole_line l rest :
  whole_line l = true -> fgets 256 (l ++ rest) = Some (l, rest).
Proof.
  intros Hl. apply andb_true_iff in Hl as [Hend Hlen].
  apply Nat.leb_le in Hlen.
  destruct l as [|c l]; [discriminate|].
  unfold fgets. cbn [String.append]. f_equal.
  change (String c (l ++ rest)) with (String c l ++ rest)%string.
  apply fgets_chars_whole_line; [exact Hend|].
  change (Nat.pred 256) with 255%nat. exact Hlen.
Qed.

Lemma skip_line_whole_line l rest :
  whole_line l = true -> skip_line (l ++ rest) = rest.
Proof. intros Hl. unfold skip_line. rewrite fgets_whole_line by exact Hl. reflexivity. Qed.

(** Reading a file made of whole lines gives the lines back. *)
Lemma file_lines_concat lines :
  Forall (fun l => whole_line l = true) lines ->
  file_lines (concat_lines lines) = lines.
Proof.
  induction 1 as [|l lines Hl _ IH]; rewrite file_lines_unfold.
  - reflexivity.
  - cbn [concat_lines fold_right]. rewrite fgets_whole_line by exact Hl.
    f_equal. exact IH.
Qed.

Lemma cumulative_totals_lines header1 header2 lines :
  whole_line header1 = true -> whole_line header2 = true ->
  Forall (fun l => whole_line l = true) lines ->
  cumulative_totals (concat_lines (header1 :: header2 :: lines))
  = (s64 (sum_rx (counted (scanned lines))),
     s64 (sum_tx (counted (scanned lines)))).
Proof.
  intros H1 H2 Hls. unfold cumulative_totals. cbn [concat_lines fold_right].
  rewrite !skip_line_whole_line by assumption.
  unfold scan_lines. fold (concat_lines lines).
  rewrite file_lines_concat by exact Hls. reflexivity.
Qed.

(** X5: on a file of whole lines the result is made from the third line
    on, line by line: the totals are the sums, modulo [2^64], of the
    counters of the lines that scan completely and whose name field is
    not [lo].  The first two lines never count, whatever they hold. *)
Theorem GetNetworkStats_line_by_line
  (h : Host) (header1 header2 : string) (lines : list string) (rx0 tx0 : Z) :
  fopen h "/proc/net/dev" = Some (concat_lines (header1 :: header2 :: lines)) ->
  whole_line header1 = true -> whole_line header2 = true ->
  Forall (fun l => whole_line l = true) lines ->
  GetNetworkStats h rx0 tx0
  = (1, s64 (sum_rx (counted (scanned lines))),
        s64 (sum_tx (counted (scanned lines)))).
Proof.
  intros Hopen H1 H2 Hls.
  rewrite (GetNetworkStats_totals h _ rx0 tx0 Hopen).
  rewrite cumulative_totals_lines by assumption. reflexivity.
Qed.

Lemma GetNetworkStats_line_by_line_witness :
  GetNetworkStats
    (MoreSamples.netdev [MoreSamples.eth0_line; MoreSamples.lo_line]) 7 7
  = (1, 100, 50).
Proof.
  refine (GetNetworkStats_line_by_line
            (MoreSamples.netdev [MoreSamples.eth0_line; MoreSamples.lo_line])
            MoreSamples.header1 MoreSamples.header2
            [MoreSamples.eth0_line; MoreSamples.lo_line] 7 7 _ _ _ _).
  - reflexivity.
  - reflexivity.
  - reflexivity.
  - repeat constructor.
Defined.

Lemma sums_permutation lines lines' :
  Permutation lines lines' ->
  sum_rx (counted (scanned lines)) = sum_rx (counted (scanned lines'))
  /\ sum_tx (counted (scanned lines)) = sum_tx (counted (scanned lines')).
Proof.
  unfold scanned, counted, sum_rx, sum_tx.
  induction 1 as [|l ls ls' _ IH|l1 l2 ls|ls1 ls2 ls3 _ IH1 _ IH2].
  - split; reflexivity.
  - destruct IH as [IHr IHt]. cbn [map List.filter].
    destruct (assigned (sscanf_netdev (c_str l)) =? 3); [|auto].
    cbn [List.filter].
    destruct (negb (String.eqb (interface (sscanf_netdev (c_str l))) "lo"));
      [|auto].
    cbn [map fold_right]. split; congruence.
  - cbn [map List.filter].
    destruct (assigned (sscanf_netdev (c_str l1)) =? 3),
             (assigned (sscanf_netdev (c_str l2)) =? 3); cbn [List.filter];
      try (split; reflexivity);
      destruct (negb (String.eqb (interface (sscanf_netdev (c_str l1))) "lo")),
               (negb (String.eqb (interface (sscanf_netdev (c_str l2))) "lo"));
      cbn [map fold_right]; split; lia.
  - destruct IH1, IH2. split; congruence.
Qed.

(** X6: on files made of newline-terminated lines of at most 255
    characters (each [fgets] call then reads one line), the order of the
    interface lines does not matter: two such files with the same two
    header lines, whose interface lines are permutations of each other,
    give the same result. *)
Theorem GetNetworkStats_order_independent
  (h h' : Host) (header1 header2 : string) (lines lines' : list string)
  (rx0 tx0 rx0' tx0' : Z) :
  fopen h "/proc/net/dev" = Some (concat_lines (header1 :: header2 :: lines)) ->
  fopen h' "/proc/net/dev" = Some (concat_lines (header1 :: header2 :: lines')) ->
  whole_line header1 = true -> whole_line header2 = true ->
  Forall (fun l => whole_line l = true) lines ->
  Permutation lines lines' ->
  GetNetworkStats h rx0 tx0 = GetNetworkStats h' rx0' tx0'.
Proof.
  intros Hopen Hopen' H1 H2 Hls Hperm.
  assert (Hls' : Forall (fun l => whole_line l = true) lines')
    by (eapply Permutation_Forall; eauto).
  rewrite (GetNetworkStats_totals h _ rx0 tx0 Hopen).
  rewrite (GetNetworkStats_totals h' _ rx0' tx0' Hopen').
  rewrite !cumulative_totals_lines by assumption.
  destruct (sums_permutation lines lines' Hperm) as [-> ->]. reflexivity.
Qed.

Lemma GetNetworkStats_order_independent_witness :
  GetNetworkStats
    (MoreSamples.netdev [MoreSamples.eth0_line; MoreSamples.wlan0_line]) 0 0
  = GetNetworkStats
      (MoreSamples.netdev [MoreSamples.wlan0_line; MoreSamples.eth0_line]) 5 5.
Proof.
  apply (GetNetworkStats_order_independent
           (MoreSamples.netdev [MoreSamples.eth0_line; MoreSamples.wlan0_line])
           (MoreSamples.netdev [MoreSamples.wlan0_line; MoreSamples.eth0_line])
           MoreSamples.header1 MoreSamples.header2
           [MoreSamples.eth0_line; MoreSamples.wlan0_line]
           [MoreSamples.wlan0_line; MoreSamples.eth0_line] 0 0 5 5).
  - reflexivity.
  - reflexivity.
  - reflexivity.
  - reflexivity.
  - repeat constructor.
  - apply perm_swap.
Defined.

Lemma counted_scanned_ignored before line after :
  ignored_line line = true ->
  counted (scanned (before ++ line :: after)) = counted (scanned (before ++ after)).
Proof.
  intros Hig. unfold scanned, counted.
  rewrite !List.map_app, !List.filter_app. cbn [map List.filter].
  f_equal. unfold ignored_line in Hig. cbv zeta in Hig.
  destruct (assigned (sscanf_netdev (c_str line)) =? 3); [|reflexivity].
  cbn [negb orb] in Hig. cbn [List.filter]. rewrite Hig. reflexivity.
Qed.

End NetworkLines.

(** ** Arrays written from the front *)

Module Arrays.
Import SystemMonitor SystemMonitorRest.

Lemma overwrite_nil {A : Type} (a : list A) n : overwrite a n [] = a.
Proof. unfold overwrite. cbn. rewrite Nat.add_0_r. apply take_drop. Qed.

Lemma overwrite_cons {A : Type} (a : list A) n v vs :
  (n < length a)%nat ->
  overwrite (<[n:=v]> a) (S n) vs = overwrite a n (v :: vs).
Proof.
  intros Hn. unfold overwrite.
  assert (Hl : (<[n:=v]> a) !! n = Some v) by (apply list_lookup_insert_eq; exact Hn).
  rewrite (take_S_r _ _ _ Hl).
  rewrite take_insert_ge by lia.
  rewrite drop_insert_lt by lia.
  cbn [length app]. rewrite <- app_assoc. cbn [app].
  replace (S n + length vs)%nat with (n + S (length vs))%nat by lia. reflexivity.
Qed.

Lemma length_overwrite {A : Type} (a : list A) n vs :
  (n + length vs <= length a)%nat -> length (overwrite a n vs) = length a.
Proof.
  intros H. unfold overwrite. rewrite !length_app, length_take, length_drop. lia.
Qed.

Lemma store_insert {A : Type} (a : list A) (count : Z) (v : A) :
  0 <= count < Z.of_nat (length a) ->
  store a count v = Some (<[Z.to_nat count := v]> a).
Proof.
  intros Hi. unfold store.
  destruct (Z.leb_spec 0 count); [|lia].
  destruct (Z.ltb_spec count (Z.of_nat (length a))); [|lia]. reflexivity.
Qed.

Lemma store_outside {A : Type} (a : list A) (count : Z) (v : A) :
  Z.of_nat (length a) <= count -> store a count v = None.
Proof.
  intros Hi. unfold store.
  destruct (Z.ltb_spec count (Z.of_nat (length a))); [lia|].
  rewrite andb_false_r. reflexivity.
Qed.

End Arrays.

(** ** GetProcessCount and GetTopProcesses *)

Module Processes.
Import CTypes Scanf SystemMonitor SystemMonitorRest Arrays TopProcesses.

Lemma s32_small z : - 2 ^ 31 <= z < 2 ^ 31 -> s32 z = z.
Proof. intros Hz. unfold s32. rewrite Z.mod_small by lia. lia. Qed.

Lemma length_filter_le {A : Type} (f : A -> bool) (l : list A) :
  (length (List.filter f l) <= length l)%nat.
Proof. induction l as [|x l IH]; cbn; [lia|]. destruct (f x); cbn; lia. Qed.

Lemma count_loop_counts entries :
  forall count,
    0 <= count -> count + Z.of_nat (length entries) < 2 ^ 31 ->
    count_loop entries count
    = count + Z.of_nat (length (List.filter is_process_entry entries)).
Proof.
  induction entries as [|entry rest IH]; intros count Hc Hlen; cbn [count_loop List.filter].
  - cbn. lia.
  - cbn [length] in Hlen. destruct (is_process_entry entry).
    + rewrite s32_small by lia. rewrite IH by lia. cbn [length]. lia.
    + apply IH; lia.
Qed.

(** X9: with fewer than [2^31] entries in [/proc], [GetProcessCount]
    returns the number of entries that are directories with an all-digit
    name; it is never negative and never more than the number of
    entries. *)
Theorem GetProcessCount_counts_numeric_directories (h : Host) (entries : list dirent) :
  opendir h "/proc" = Some entries ->
  Z.of_nat (length entries) < 2 ^ 31 ->
  GetProcessCount h = Z.of_nat (length (List.filter is_process_entry entries))
  /\ 0 <= GetProcessCount h <= Z.of_nat (length entries).
Proof.
  intros Hopen Hlen. unfold GetProcessCount. rewrite Hopen.
  rewrite count_loop_counts by lia.
  pose proof (length_filter_le is_process_entry entries). split; lia.
Qed.

Lemma GetProcessCount_counts_numeric_directories_witness :
  GetProcessCount (Samples.host None None Samples.proc_entries) = 3
  /\ 0 <= GetProcessCount (Samples.host None None Samples.proc_entries) <= 6.
Proof.
  refine (GetProcessCount_counts_numeric_directories
            (Samples.host None None Samples.proc_entries) Samples.proc_entries _ _).
  - reflexivity.
  - reflexivity.
Defined.

Lemma top_loop_written maxCount entries :
  forall count out,
    0 <= count <= maxCount -> room_for maxCount out ->
    let written :=
      take (Z.to_nat (maxCount - count)) (List.filter is_process_entry entries) in
    top_loop entries count maxCount out
    = Some (count + Z.of_nat (length written),
            {| processIds :=
                 overwrite (processIds out) (Z.to_nat count) (process_ids written);
               processNames :=
                 overwrite (processNames out) (Z.to_nat count) (process_names written);
               memoryUsages :=
                 overwrite (memoryUsages out) (Z.to_nat count)
                           (process_memories written) |}).
Proof.
  induction entries as [|entry rest IH]; intros count out Hc Hroom;
    cbn [top_loop List.filter].
  - rewrite take_nil. cbn [length process_ids process_names process_memories map].
    rewrite !overwrite_nil, Z.add_0_r. destruct out; reflexivity.
  - destruct (Z.ltb_spec count maxCount) as [Hlt|Hge].
    + fold (is_process_entry entry). destruct (is_process_entry entry).
      * destruct Hroom as (Hi & Hn & Hm).
        unfold store_process. rewrite !store_insert by lia.
        rewrite IH;
          [|lia|unfold room_for; cbn; rewrite !length_insert; auto].
        replace (Z.to_nat (maxCount - count))
          with (S (Z.to_nat (maxCount - (count + 1)))) by lia.
        cbn [firstn length process_ids process_names process_memories map
             processIds processNames memoryUsages].
        replace (Z.to_nat (count + 1)) with (S (Z.to_nat count)) by lia.
        rewrite !overwrite_cons by lia.
        f_equal. f_equal. lia.
      * apply IH; auto.
    + replace (Z.to_nat (maxCount - count)) with 0%nat by lia.
      rewrite take_0. cbv zeta.
      cbn [length process_ids process_names process_memories map].
      rewrite !overwrite_nil, Z.add_0_r. destruct out; reflexivity.
Qed.

(** X10: what [GetTopProcesses] writes.  With room for [maxCount] records,
    the records written are those of the first [maxCount] process entries
    of [/proc] in directory order (no ranking by memory): the identifier
    is the name read as a number, the name is the entry name, the memory
    figure is always [0]; they fill the arrays from slot [0], the other
    slots keep their content. *)
Theorem GetTopProcesses_first_in_directory_order
  (h : Host) (entries : list dirent) (out : ProcessArrays) (maxCount : Z) :
  opendir h "/proc" = Some entries ->
  0 <= maxCount ->
  room_for maxCount out ->
  let written :=
    take (Z.to_nat maxCount) (List.filter is_process_entry entries) in
  GetTopProcesses h out maxCount
  = Some (Z.of_nat (length written),
          {| processIds :=
               process_ids written ++ drop (length written) (processIds out);
             processNames :=
               process_names written ++ drop (length written) (processNames out);
             memoryUsages :=
               process_memories written
               ++ drop (length written) (memoryUsages out) |}).
Proof.
  intros Hopen Hmax Hroom. cbv zeta. unfold GetTopProcesses. rewrite Hopen.
  rewrite (top_loop_written maxCount entries 0 out) by (auto; lia).
  rewrite Z.sub_0_r. unfold overwrite.
  change (Z.to_nat 0) with 0%nat. cbn [firstn app Nat.add].
  unfold process_ids, process_names, process_memories.
  rewrite !length_map. reflexivity.
Qed.

Lemma GetTopProcesses_first_in_directory_order_witness :
  GetTopProcesses (Samples.host None None Samples.proc_entries)
                  MoreSamples.three_slots 2
  = Some (2, {| processIds := [1; 42; -1];
                processNames := ["1"; "42"; "?"]%string;
                memoryUsages := [0; 0; -1] |}).
Proof.
  refine (GetTopProcesses_first_in_directory_order
            (Samples.host None None Samples.proc_entries) Samples.proc_entries
            MoreSamples.three_slots 2 _ _ _).
  - reflexivity.
  - lia.
  - unfold room_for. cbn. lia.
Defined.

(** For [maxCount <= 0] nothing is stored, whatever the sizes of the
    arrays. *)
Lemma GetTopProcesses_nothing_below_one
  (h : Host) (out : ProcessArrays) (maxCount : Z) :
  maxCount <= 0 -> GetTopProcesses h out maxCount = Some (0, out).
Proof.
  intros Hmax. unfold GetTopProcesses.
  destruct (opendir h "/proc") as [[|entry rest]|]; try reflexivity.
  cbn [top_loop]. destruct (Z.ltb_spec 0 maxCount); [lia|reflexivity].
Qed.

(** X11: when [/proc] can be read and holds fewer than [2^31] entries,
    and each of the caller's arrays has room for [maxCount] records, the
    number of records [GetTopProcesses] writes is the smaller of
    [maxCount] and what [GetProcessCount] returns on the same [/proc];
    for a negative [maxCount] it is [0]. *)
Theorem GetTopProcesses_count_is_min
  (h : Host) (entries : list dirent) (out : ProcessArrays) (maxCount : Z) :
  opendir h "/proc" = Some entries ->
  Z.of_nat (length entries) < 2 ^ 31 ->
  room_for maxCount out ->
  exists out',
    GetTopProcesses h out maxCount
    = Some (Z.min (Z.max 0 maxCount) (GetProcessCount h), out').
Proof.
  intros Hopen Hlen Hroom.
  destruct (Z.le_gt_cases maxCount 0) as [Hle|Hgt].
  - exists out. rewrite (GetTopProcesses_nothing_below_one h out maxCount Hle).
    unfold GetProcessCount. rewrite Hopen, count_loop_counts by lia.
    f_equal. f_equal. lia.
  - unfold GetProcessCount, GetTopProcesses. rewrite Hopen.
    rewrite count_loop_counts by lia.
    rewrite (top_loop_written maxCount entries 0 out) by (auto; lia).
    eexists. f_equal. f_equal. rewrite length_take. lia.
Qed.

(** Three processes in [/proc]: two records for [maxCount = 2], three for
    [maxCount = 3], none for [maxCount = -1]. *)
Lemma GetTopProcesses_count_is_min_witness :
  GetProcessCount (Samples.host None None Samples.proc_entries) = 3
  /\ (exists out',
        GetTopProcesses (Samples.host None None Samples.proc_entries)
                        MoreSamples.three_slots 2 = Some (2, out'))
  /\ (exists out',
        GetTopProcesses (Samples.host None None Samples.proc_entries)
                        MoreSamples.three_slots 3 = Some (3, out'))
  /\ (exists out',
        GetTopProcesses (Samples.host None None Samples.proc_entries)
                        MoreSamples.three_slots (-1) = Some (0, out')).
Proof.
  split; [reflexivity|]. split; [|split].
  - apply (GetTopProcesses_count_is_min
             (Samples.host None None Samples.proc_entries) Samples.proc_entries
             MoreSamples.three_slots 2).
    + reflexivity.
    + reflexivity.
    + unfold room_for. cbn. lia.
  - apply (GetTopProcesses_count_is_min
             (Samples.host None None Samples.proc_entries) Samples.proc_entries
             MoreSamples.three_slots 3).
    + reflexivity.
    + reflexivity.
    + unfold room_for. cbn. lia.
  - apply (GetTopProcesses_count_is_min
             (Samples.host None None Samples.proc_entries) Samples.proc_entries
             MoreSamples.three_slots (-1)).
    + reflexivity.
    + reflexivity.
    + unfold room_for. cbn. lia.
Defined.

Lemma top_loop_overruns maxCount entries :
  forall count out,
    0 <= count <= Z.of_nat (length (processIds out)) ->
    Z.of_nat (length (processIds out)) < maxCount ->
    Z.of_nat (length (processIds out)) < count + Z.of_nat (process_entries entries) ->
    top_loop entries count maxCount out = None.
Proof.
  unfold process_entries.
  induction entries as [|entry rest IH]; intros count out Hc Hmax Hmany;
    cbn [top_loop List.filter] in *.
  - cbn in Hmany. lia.
  - destruct (Z.ltb_spec count maxCount) as [_|Hge]; [|lia].
    fold (is_process_entry entry) in *. destruct (is_process_entry entry).
    + cbn [length] in Hmany. unfold store_process.
      destruct (Z.eq_dec count (Z.of_nat (length (processIds out)))) as [Heq|Hne].
      * rewrite (store_outside (processIds out)) by lia. reflexivity.
      * rewrite (store_insert (processIds out)) by lia.
        destruct (store (processNames out) count (d_name entry)); [|reflexivity].
        destruct (store (memoryUsages out) count 0); [|reflexivity].
        apply IH; cbn [processIds]; rewrite ?length_insert; lia.
    + apply IH; auto.
Qed.

(** X12: no test but [count < maxCount] guards the stores.  When [/proc]
    has more process entries than [processIds] has slots and [maxCount]
    is larger than that too, the loop stores outside the array. *)
Theorem GetTopProcesses_overruns_short_array
  (h : Host) (entries : list dirent) (out : ProcessArrays) (maxCount : Z) :
  opendir h "/proc" = Some entries ->
  Z.of_nat (length (processIds out)) < maxCount ->
  (length (processIds out) < process_entries entries)%nat ->
  GetTopProcesses h out maxCount = None.
Proof.
  intros Hopen Hmax Hmany. unfold GetTopProcesses. rewrite Hopen.
  apply top_loop_overruns; lia.
Qed.

(** Three processes, [maxCount = 3], two slots. *)
Lemma GetTopProcesses_overruns_short_array_witness :
  GetTopProcesses (Samples.host None None Samples.proc_entries)
                  Samples.two_slots 3 = None.
Proof.
  apply (GetTopProcesses_overruns_short_array
           (Samples.host None None Samples.proc_entries) Samples.proc_entries
           Samples.two_slots 3).
  - reflexivity.
  - reflexivity.
  - vm_compute. lia.
Defined.

End Processes.

(** ** ListDirectory *)

Module Directory.
Import CTypes Scanf SystemMonitor SystemMonitorRest Arrays.

Lemma list_loop_written maxFiles entries :
  forall count fileNames,
    0 <= count <= maxFiles ->
    maxFiles <= Z.of_nat (length fileNames) ->
    let written := take (Z.to_nat (maxFiles - count)) (listed_names entries) in
    list_loop entries count maxFiles fileNames
    = Some (count + Z.of_nat (length written),
            overwrite fileNames (Z.to_nat count) written).
Proof.
  unfold listed_names.
  induction entries as [|entry rest IH]; intros count fileNames Hc Hroom;
    cbn [list_loop List.filter map].
  - rewrite take_nil. cbn [length]. rewrite overwrite_nil, Z.add_0_r. reflexivity.
  - destruct (Z.ltb_spec count maxFiles) as [Hlt|Hge].
    + destruct (is_listed (d_name entry)).
      * rewrite store_insert by lia.
        rewrite IH; [|lia|rewrite length_insert; auto].
        replace (Z.to_nat (maxFiles - count))
          with (S (Z.to_nat (maxFiles - (count + 1)))) by lia.
        cbn [firstn length].
        replace (Z.to_nat (count + 1)) with (S (Z.to_nat count)) by lia.
        rewrite overwrite_cons by lia. f_equal. f_equal. lia.
      * apply IH; auto.
    + replace (Z.to_nat (maxFiles - count)) with 0%nat by lia.
      rewrite take_0. cbv zeta. cbn [length].
      rewrite overwrite_nil, Z.add_0_r. reflexivity.
Qed.

(** X14: what [ListDirectory] returns and writes.  With room for
    [maxFiles] names, the names written are the first [maxFiles] entry
    names other than [.] and [..], in directory order, from slot [0]; the
    other slots keep their content; the value returned is their number,
    which is the smaller of [maxFiles] and the number of such entries. *)
Theorem ListDirectory_first_names
  (h : Host) (path : string) (entries : list dirent)
  (fileNames : list string) (maxFiles : Z) :
  opendir h path = Some entries ->
  0 <= maxFiles ->
  maxFiles <= Z.of_nat (length fileNames) ->
  let written := take (Z.to_nat maxFiles) (listed_names entries) in
  ListDirectory h path fileNames maxFiles
  = Some (Z.of_nat (length written),
          written ++ drop (length written) fileNames)
  /\ Z.of_nat (length written)
     = Z.min maxFiles (Z.of_nat (length (listed_names entries))).
Proof.
  intros Hopen Hmax Hroom. cbv zeta. unfold ListDirectory. rewrite Hopen.
  rewrite (list_loop_written maxFiles entries 0 fileNames) by (auto; lia).
  rewrite Z.sub_0_r. unfold overwrite.
  change (Z.to_nat 0) with 0%nat. cbn [firstn app Nat.add].
  split; [reflexivity|]. rewrite length_take. lia.
Qed.

Lemma ListDirectory_first_names_witness :
  ListDirectory (MoreSamples.dir_host "/data" (Some MoreSamples.data_entries))
                "/data" MoreSamples.two_names 2
  = Some (2, ["a.txt"; "b"]%string)
  /\ 2 = Z.min 2 3.
Proof.
  refine (ListDirectory_first_names
            (MoreSamples.dir_host "/data" (Some MoreSamples.data_entries))
            "/data" MoreSamples.data_entries MoreSamples.two_names 2 _ _ _).
  - reflexivity.
  - lia.
  - cbn. lia.
Defined.

(** X15: the value [0] does not tell a directory that cannot be opened from
    one that holds nothing but [.] and [..]: the value returned and the
    array are the same in both cases. *)
Theorem ListDirectory_unreadable_as_empty
  (h h' : Host) (path : string) (entries : list dirent)
  (fileNames : list string) (maxFiles : Z) :
  opendir h path = None ->
  opendir h' path = Some entries ->
  listed_names entries = [] ->
  ListDirectory h path fileNames maxFiles = Some (0, fileNames)
  /\ ListDirectory h' path fileNames maxFiles = Some (0, fileNames).
Proof.
  intros Hfail Hopen Hnone. unfold ListDirectory. rewrite Hfail, Hopen.
  split; [reflexivity|].
  assert (Hloop : forall count names,
             list_loop entries count maxFiles names = Some (count, names)).
  { unfold listed_names in Hnone. clear Hopen.
    induction entries as [|entry rest IH]; intros count names; cbn [list_loop].
    - reflexivity.
    - cbn [map List.filter] in Hnone.
      destruct (is_listed (d_name entry)); [discriminate|].
      destruct (count <? maxFiles); [|reflexivity]. apply IH. exact Hnone. }
  apply Hloop.
Qed.

Lemma ListDirectory_unreadable_as_empty_witness :
  ListDirectory (MoreSamples.dir_host "/data" None) "/data" MoreSamples.two_names 2
  = Some (0, MoreSamples.two_names)
  /\ ListDirectory (MoreSamples.dir_host "/data" (Some MoreSamples.dot_entries))
                   "/data" MoreSamples.two_names 2
     = Some (0, MoreSamples.two_names).
Proof.
  apply (ListDirectory_unreadable_as_empty
           (MoreSamples.dir_host "/data" None)
           (MoreSamples.dir_host "/data" (Some MoreSamples.dot_entries))
           "/data" MoreSamples.dot_entries MoreSamples.two_names 2);
    reflexivity.
Defined.

Lemma list_loop_cons entry rest count maxFiles fileNames :
  list_loop (entry :: rest) count maxFiles fileNames
  = if count <? maxFiles then
      if is_listed (d_name entry) then
        match store fileNames count (d_name entry) with
        | Some fileNames' => list_loop rest (count + 1) maxFiles fileNames'
        | None => None
        end
      else list_loop rest count maxFiles fileNames
    else Some (count, fileNames).
Proof. reflexivity. Qed.

Lemma list_loop_full entries count maxFiles fileNames :
  maxFiles <= count ->
  list_loop entries count maxFiles fileNames = Some (count, fileNames).
Proof.
  intros Hge. destruct entries as [|entry rest]; [reflexivity|].
  rewrite list_loop_cons. destruct (Z.ltb_spec count maxFiles); [lia|reflexivity].
Qed.

(** X13: for a bound of [0] or less neither enumeration stores
    anything, whatever the sizes of the arrays, and [ListDirectory]
    returns [0]. *)
Theorem nothing_stored_below_one
  (h : Host) (path : string) (out : ProcessArrays) (fileNames : list string)
  (bound : Z) :
  bound <= 0 ->
  GetTopProcesses h out bound = Some (0, out)
  /\ ListDirectory h path fileNames bound = Some (0, fileNames).
Proof.
  intros Hbound. split.
  - apply Processes.GetTopProcesses_nothing_below_one. exact Hbound.
  - unfold ListDirectory. destruct (opendir h path) as [entries|]; [|reflexivity].
    apply list_loop_full. lia.
Qed.

Lemma nothing_stored_below_one_witness :
  GetTopProcesses (Samples.host None None Samples.proc_entries) Samples.two_slots (-1)
  = Some (0, Samples.two_slots)
  /\ ListDirectory (Samples.host None None Samples.proc_entries) "/proc" [] (-1)
     = Some (0, []).
Proof.
  apply (nothing_stored_below_one
           (Samples.host None None Samples.proc_entries) "/proc"
           Samples.two_slots [] (-1)).
  lia.
Defined.

End Directory.

(** ** ListDirectory under [_WIN32] *)

Module DirectoryWin32.
Import CTypes Scanf SystemMonitor SystemMonitorRest Arrays Directory.
Import SystemMonitorWin32.

Lemma find_loop_as_list_loop maxFiles rest :
  forall entry count fileNames,
    find_loop (d_name entry) (map d_name rest) count maxFiles fileNames
    = list_loop (entry :: rest) count maxFiles fileNames.
Proof.
  induction rest as [|entry' rest IH]; intros entry count fileNames;
    rewrite list_loop_cons; cbn [find_loop map]; unfold find_body.
  - destruct (is_listed (d_name entry)), (count <? maxFiles); try reflexivity.
    destruct (store fileNames count (d_name entry)); reflexivity.
  - destruct (is_listed (d_name entry)), (Z.ltb_spec count maxFiles) as [Hlt|Hge].
    + destruct (store fileNames count (d_name entry)) as [names|]; [|reflexivity].
      destruct (Z.ltb_spec (count + 1) maxFiles) as [Hlt'|Hge'].
      * apply IH.
      * symmetry. apply list_loop_full. exact Hge'.
    + destruct (Z.ltb_spec count maxFiles); [lia|reflexivity].
    + destruct (Z.ltb_spec count maxFiles) as [_|]; [|lia]. apply IH.
    + destruct (Z.ltb_spec count maxFiles); [lia|reflexivity].
Qed.

(** X16: the two branches agree.  When [FindFirstFileA]/[FindNextFileA]
    yield the names that [readdir] yields, in the same order, the
    [_WIN32] loop ([do ... while] with the test inside) returns the same
    value and leaves the same array as the POSIX loop. *)
Theorem ListDirectory_branches_agree
  (w : WinHost) (h : Host) (MAX_PATH : nat) (path : string)
  (entry : dirent) (rest : list dirent) (fileNames : list string) (maxFiles : Z) :
  FindFirstFileA w (search_path MAX_PATH path)
  = Some (d_name entry, map d_name rest) ->
  opendir h path = Some (entry :: rest) ->
  SystemMonitorWin32.ListDirectory w MAX_PATH path fileNames maxFiles
  = SystemMonitorRest.ListDirectory h path fileNames maxFiles.
Proof.
  intros Hfind Hopen.
  unfold SystemMonitorWin32.ListDirectory, SystemMonitorRest.ListDirectory.
  rewrite Hfind, Hopen. apply find_loop_as_list_loop.
Qed.

Lemma ListDirectory_branches_agree_witness :
  SystemMonitorWin32.ListDirectory MoreSamples.win_host 260 "C:\data"
                                   MoreSamples.two_names 2
  = SystemMonitorRest.ListDirectory
      (MoreSamples.dir_host "C:\data" (Some MoreSamples.data_entries))
      "C:\data" MoreSamples.two_names 2.
Proof.
  apply (ListDirectory_branches_agree
           MoreSamples.win_host
           (MoreSamples.dir_host "C:\data" (Some MoreSamples.data_entries))
           260 "C:\data"
           {| d_type := 4; d_name := "." |}
           [ {| d_type := 4; d_name := ".." |};
             {| d_type := 8; d_name := "a.txt" |};
             {| d_type := 4; d_name := "b" |};
             {| d_type := 8; d_name := "c.txt" |} ]
           MoreSamples.two_names 2);
    reflexivity.
Defined.

End DirectoryWin32.

(** ** Sizes and ports *)

Module Capacities.
Import CTypes Scanf SystemMonitor SystemMonitorRest.

Lemma s64_u64_small z : 0 <= z < 2 ^ 63 -> s64 (u64 z) = z.
Proof.
  intros Hz. unfold s64, u64.
  rewrite (Z.mod_small z) by lia. rewrite Z.mod_small by lia. lia.
Qed.

(** X17: when the file system reports no more available than total blocks
    and the total size in bytes fits a [long long], [GetDiskUsage] stores
    the two sizes in bytes, and the free space is between [0] and the
    total space. *)
Theorem GetDiskUsage_free_within_total
  (h : Host) (path : string) (stat : statvfs_t) (totalSpace freeSpace : Z) :
  statvfs h path = Some stat ->
  0 <= f_bavail stat <= f_blocks stat ->
  0 <= f_frsize stat ->
  f_blocks stat * f_frsize stat < 2 ^ 63 ->
  GetDiskUsage h path totalSpace freeSpace
  = (1, f_blocks stat * f_frsize stat, f_bavail stat * f_frsize stat)
  /\ 0 <= f_bavail stat * f_frsize stat <= f_blocks stat * f_frsize stat.
Proof.
  intros Hok Hav Hfr Hfit.
  assert (Hle : 0 <= f_bavail stat * f_frsize stat <= f_blocks stat * f_frsize stat)
    by nia.
  unfold GetDiskUsage. rewrite Hok.
  rewrite !s64_u64_small by lia. auto.
Qed.

Lemma GetDiskUsage_free_within_total_witness :
  GetDiskUsage (Samples.host None None []) "/" 0 0 = (1, 1000 * 4096, 250 * 4096)
  /\ 0 <= 250 * 4096 <= 1000 * 4096.
Proof.
  refine (GetDiskUsage_free_within_total
            (Samples.host None None []) "/"
            {| f_blocks := 1000; f_frsize := 4096; f_bavail := 250 |} 0 0
            _ _ _ _).
  - reflexivity.
  - cbn. lia.
  - cbn. lia.
  - cbn. lia.
Defined.

(** X18: when [sysinfo] succeeds with no more free than total memory and
    the total size in bytes fits a [long long], the two functions return
    the sizes in bytes and [GetAvailableMemory] is between [0] and
    [GetTotalMemory]. *)
Theorem GetAvailableMemory_within_total (info stack : sysinfo_t) :
  0 <= freeram info <= totalram info ->
  0 <= mem_unit info ->
  totalram info * mem_unit info < 2 ^ 63 ->
  GetAvailableMemory (Some info) stack = freeram info * mem_unit info
  /\ GetTotalMemory (Some info) stack = totalram info * mem_unit info
  /\ 0 <= GetAvailableMemory (Some info) stack <= GetTotalMemory (Some info) stack.
Proof.
  intros Hfree Hunit Hfit.
  assert (Hle : 0 <= freeram info * mem_unit info <= totalram info * mem_unit info)
    by nia.
  unfold GetAvailableMemory, GetTotalMemory, call_sysinfo.
  rewrite !s64_u64_small by lia. auto.
Qed.

Lemma GetAvailableMemory_within_total_witness :
  GetAvailableMemory (Some MoreSamples.meminfo) MoreSamples.meminfo
  = 1000000 * 4096
  /\ GetTotalMemory (Some MoreSamples.meminfo) MoreSamples.meminfo
     = 4000000 * 4096
  /\ 0 <= GetAvailableMemory (Some MoreSamples.meminfo) MoreSamples.meminfo
       <= GetTotalMemory (Some MoreSamples.meminfo) MoreSamples.meminfo.
Proof.
  refine (GetAvailableMemory_within_total
            MoreSamples.meminfo MoreSamples.meminfo _ _ _).
  - cbn. lia.
  - cbn. lia.
  - cbn. lia.
Defined.

(** X19: the port is converted to 16 bits without a test: two port numbers
    that differ by a multiple of 65536 are the same probe. *)
Theorem CheckPortStatus_port_modulo_65536
  (h : Host) (stack_addr : Z) (host : string) (port k : Z) :
  CheckPortStatus h stack_addr host (port + 65536 * k)
  = CheckPortStatus h stack_addr host port.
Proof.
  unfold CheckPortStatus.
  replace (u16 (port + 65536 * k)) with (u16 port); [reflexivity|].
  unfold u16. change (2 ^ 16) with 65536.
  rewrite (Z.mul_comm 65536 k), Z_mod_plus_full. reflexivity.
Qed.

End Capacities.

(** ** GetTopProcesses under [_WIN32], and the search pattern *)

Module ProcessesWin32.
Import CTypes Scanf SystemMonitor SystemMonitorRest Arrays TopProcesses.
Import SystemMonitorWin32.

Lemma length_process_records w pids :
  (length (process_records w pids) <= length pids)%nat.
Proof.
  induction pids as [|pid rest IH]; cbn; [lia|].
  destruct (process_record w pid); cbn; lia.
Qed.

Lemma enum_loop_written w maxCount pids :
  forall count out,
    0 <= count <= maxCount -> room_for maxCount out ->
    let written :=
      take (Z.to_nat (maxCount - count)) (process_records w pids) in
    enum_loop w pids count maxCount out
    = Some (count + Z.of_nat (length written),
            {| processIds :=
                 overwrite (processIds out) (Z.to_nat count)
                           (map (fun r => fst (fst r)) written);
               processNames :=
                 overwrite (processNames out) (Z.to_nat count)
                           (map (fun r => snd (fst r)) written);
               memoryUsages :=
                 overwrite (memoryUsages out) (Z.to_nat count)
                           (map snd written) |}).
Proof.
  induction pids as [|pid rest IH]; intros count out Hc Hroom;
    cbn [enum_loop process_records].
  - rewrite take_nil. cbn [length map].
    rewrite !overwrite_nil, Z.add_0_r. destruct out; reflexivity.
  - destruct (Z.ltb_spec count maxCount) as [Hlt|Hge].
    + destruct (process_record w pid) as [[[id name] memory]|].
      * destruct Hroom as (Hi & Hn & Hm).
        rewrite !store_insert by lia.
        rewrite IH;
          [|lia|unfold room_for; cbn; rewrite !length_insert; auto].
        replace (Z.to_nat (maxCount - count))
          with (S (Z.to_nat (maxCount - (count + 1)))) by lia.
        cbn [firstn length map fst snd processIds processNames memoryUsages].
        replace (Z.to_nat (count + 1)) with (S (Z.to_nat count)) by lia.
        rewrite !overwrite_cons by lia.
        f_equal. f_equal. lia.
      * apply IH; auto.
    + replace (Z.to_nat (maxCount - count)) with 0%nat by lia.
      rewrite take_0. cbv zeta. cbn [length map].
      rewrite !overwrite_nil, Z.add_0_r. destruct out; reflexivity.
Qed.

(** X20: what [GetTopProcesses] writes under [_WIN32].  Only the first
    1024 identifiers [EnumProcesses] has are looked at; a process that
    cannot be opened or whose memory figures cannot be read is skipped
    without using a slot; a process whose name cannot be read gets the
    name ["Unknown"].  With room for [maxCount] records, the first
    [maxCount] records so obtained fill the arrays from slot [0], the
    other slots keep their content, and the number written is at most
    what [GetProcessCount] returns, itself at most 1024. *)
Theorem GetTopProcesses_win32_records
  (w : WinHost) (pids : list Z) (out : ProcessArrays) (maxCount : Z) :
  EnumProcesses w = Some pids ->
  0 <= maxCount ->
  room_for maxCount out ->
  let written :=
    take (Z.to_nat maxCount) (process_records w (take 1024 pids)) in
  SystemMonitorWin32.GetTopProcesses w out maxCount
  = Some (Z.of_nat (length written),
          {| processIds :=
               map (fun r => fst (fst r)) written
               ++ drop (length written) (processIds out);
             processNames :=
               map (fun r => snd (fst r)) written
               ++ drop (length written) (processNames out);
             memoryUsages :=
               map snd written ++ drop (length written) (memoryUsages out) |})
  /\ Z.of_nat (length written) <= SystemMonitorWin32.GetProcessCount w <= 1024.
Proof.
  intros Henum Hmax Hroom. cbv zeta.
  unfold SystemMonitorWin32.GetTopProcesses, SystemMonitorWin32.GetProcessCount.
  rewrite Henum. unfold enumerated. split.
  - rewrite (enum_loop_written w maxCount (take 1024 pids) 0 out) by (auto; lia).
    rewrite Z.sub_0_r. unfold overwrite.
    change (Z.to_nat 0) with 0%nat. cbn [firstn app Nat.add].
    rewrite !length_map. reflexivity.
  - pose proof (length_process_records w (take 1024 pids)) as Hrec.
    rewrite length_take in Hrec. rewrite !length_take. lia.
Qed.

(** Identifiers 0 and 4 cannot be opened and 120 has no memory figures:
    88 and 300 are written, the latter without a name. *)
Lemma GetTopProcesses_win32_records_witness :
  SystemMonitorWin32.GetTopProcesses MoreSamples.win_host MoreSamples.three_slots 3
  = Some (2, {| processIds := [88; 300; -1];
                processNames := ["svchost.exe"; "Unknown"; "?"]%string;
                memoryUsages := [4456448; 5324800; -1] |})
  /\ 2 <= SystemMonitorWin32.GetProcessCount MoreSamples.win_host <= 1024.
Proof.
  refine (GetTopProcesses_win32_records
            MoreSamples.win_host [0; 4; 88; 120; 300] MoreSamples.three_slots 3
            _ _ _).
  - reflexivity.
  - lia.
  - unfold room_for. cbn. lia.
Defined.

Lemma substring_all (n : nat) (s : string) :
  (String.length s <= n)%nat -> String.substring 0 n s = s.
Proof.
  revert n. induction s as [|c s IH]; intros n Hn.
  - destruct n; reflexivity.
  - destruct n as [|n]; [cbn in Hn; lia|]. cbn [String.substring].
    rewrite IH by (cbn in Hn; lia). reflexivity.
Qed.

Lemma substring_append (n : nat) (s t : string) :
  (n <= String.length s)%nat ->
  String.substring 0 n (s ++ t) = String.substring 0 n s.
Proof.
  revert n. induction s as [|c s IH]; intros n Hn.
  - cbn in Hn. replace n with 0%nat by lia. destruct t; reflexivity.
  - destruct n as [|n]; [reflexivity|]. cbn [String.append String.substring].
    rewrite IH by (cbn in Hn; lia). reflexivity.
Qed.

Lemma length_append (s t : string) :
  String.length (s ++ t) = (String.length s + String.length t)%nat.
Proof. induction s as [|c s IH]; cbn; [reflexivity|]. rewrite IH. reflexivity. Qed.

(** X21: the search pattern is built in a buffer of [MAX_PATH] characters
    and its truncation is not detected.  A path of at most
    [MAX_PATH - 3] characters gives the pattern [path\*]; for a path of
    [MAX_PATH - 1] characters or more the pattern is a prefix of the path
    itself, without the wildcard. *)
Theorem search_path_truncated (MAX_PATH : nat) (path : string) :
  ((String.length path + 3 <= MAX_PATH)%nat ->
   search_path MAX_PATH path = (path ++ "\*")%string)
  /\ ((MAX_PATH <= String.length path + 1)%nat ->
      search_path MAX_PATH path = String.substring 0 (Nat.pred MAX_PATH) path).
Proof.
  unfold search_path. split; intros Hlen.
  - apply substring_all. rewrite length_append. cbn. lia.
  - apply substring_append. lia.
Qed.

End ProcessesWin32.

Module NetworkIgnored.
Import CTypes Scanf SystemMonitor SystemMonitorRest Specification NetworkStats.
Import NetworkLines.

Lemma cumulative_totals_without_line header1 header2 before line after :
  whole_line header1 = true -> whole_line header2 = true ->
  Forall (fun l => whole_line l = true) (before ++ line :: after) ->
  ignored_line line = true ->
  cumulative_totals (concat_lines (header1 :: header2 :: before ++ line :: after))
  = cumulative_totals (concat_lines (header1 :: header2 :: before ++ after)).
Proof.
  intros H1 H2 Hls Hig.
  assert (Hls' : Forall (fun l => whole_line l = true) (before ++ after)).
  { apply Forall_app in Hls as [Hb Ha]. apply Forall_app. split; [exact Hb|].
    inversion Ha; assumption. }
  rewrite !cumulative_totals_lines by assumption.
  rewrite (counted_scanned_ignored before line after Hig). reflexivity.
Qed.

(** X7: on a file made of newline-terminated lines of at most 255
    characters, a line after the two header lines whose name field is
    exactly [lo], or that does not scan completely, can be removed
    without changing the result. *)
Theorem GetNetworkStats_ignored_line
  (h h' : Host) (header1 header2 : string) (before after : list string)
  (line : string) (rx0 tx0 rx0' tx0' : Z) :
  fopen h "/proc/net/dev"
  = Some (concat_lines (header1 :: header2 :: before ++ line :: after)) ->
  fopen h' "/proc/net/dev"
  = Some (concat_lines (header1 :: header2 :: before ++ after)) ->
  whole_line header1 = true -> whole_line header2 = true ->
  Forall (fun l => whole_line l = true) (before ++ line :: after) ->
  ignored_line line = true ->
  GetNetworkStats h rx0 tx0 = GetNetworkStats h' rx0' tx0'.
Proof.
  intros Hopen Hopen' H1 H2 Hls Hig.
  rewrite (GetNetworkStats_totals h _ rx0 tx0 Hopen).
  rewrite (GetNetworkStats_totals h' _ rx0' tx0' Hopen').
  rewrite (cumulative_totals_without_line header1 header2 before line after)
    by assumption.
  reflexivity.
Qed.

(** A loopback line printed without padding, between two others. *)
Lemma GetNetworkStats_ignored_line_witness :
  GetNetworkStats
    (MoreSamples.netdev
       [MoreSamples.eth0_line; MoreSamples.lo_line; MoreSamples.wlan0_line]) 0 0
  = GetNetworkStats
      (MoreSamples.netdev [MoreSamples.eth0_line; MoreSamples.wlan0_line]) 0 0.
Proof.
  apply (GetNetworkStats_ignored_line
           (MoreSamples.netdev
              [MoreSamples.eth0_line; MoreSamples.lo_line; MoreSamples.wlan0_line])
           (MoreSamples.netdev [MoreSamples.eth0_line; MoreSamples.wlan0_line])
           MoreSamples.header1 MoreSamples.header2
           [MoreSamples.eth0_line] [MoreSamples.wlan0_line]
           MoreSamples.lo_line 0 0 0 0).
  - reflexivity.
  - reflexivity.
  - reflexivity.
  - reflexivity.
  - repeat constructor.
  - reflexivity.
Defined.

Lemma scan_not_colon_colon_free width s :
  colon_free (S width) s = true ->
  match_literal ":" (snd (scan_not_colon width s)) = None.
Proof.
  revert s. induction width as [|width IH]; intros s Hfree.
  - destruct s as [|c s]; [reflexivity|].
    cbn [colon_free] in Hfree. apply andb_true_iff in Hfree as [Hc _].
    apply negb_true_iff in Hc.
    cbn [scan_not_colon snd match_literal].
    rewrite Ascii.eqb_sym, Hc. reflexivity.
  - destruct s as [|c s]; [reflexivity|].
    cbn [colon_free] in Hfree. apply andb_true_iff in Hfree as [Hc Hfree].
    apply negb_true_iff in Hc. cbn [scan_not_colon]. rewrite Hc.
    specialize (IH s Hfree).
    destruct (scan_not_colon width s) as [tok r]. exact IH.
Qed.

Lemma sscanf_netdev_colon_free line :
  colon_free 32 line = true -> assigned (sscanf_netdev line) <> 3.
Proof.
  intros Hfree. pose proof (scan_not_colon_colon_free 31 line Hfree) as Hlit.
  unfold sscanf_netdev. destruct line as [|c line]; [cbn; lia|].
  destruct (scan_not_colon 31 (String c line)) as [name s0]. cbn [snd] in Hlit.
  destruct name; [cbn; lia|]. rewrite Hlit. cbn. lia.
Qed.

(** X8: on a file made of newline-terminated lines of at most 255
    characters, a line after the two header lines without [':'] among its
    first 32 characters (no colon at all, or a name field of more than 31
    characters) is not counted and can be removed without changing the
    result: [%31[^:]] stops before a character that is not the [':'] the
    format asks for next. *)
Theorem GetNetworkStats_name_field_too_long
  (h h' : Host) (header1 header2 : string) (before after : list string)
  (line : string) (rx0 tx0 rx0' tx0' : Z) :
  fopen h "/proc/net/dev"
  = Some (concat_lines (header1 :: header2 :: before ++ line :: after)) ->
  fopen h' "/proc/net/dev"
  = Some (concat_lines (header1 :: header2 :: before ++ after)) ->
  whole_line header1 = true -> whole_line header2 = true ->
  Forall (fun l => whole_line l = true) (before ++ line :: after) ->
  colon_free 32 (c_str line) = true ->
  GetNetworkStats h rx0 tx0 = GetNetworkStats h' rx0' tx0'.
Proof.
  intros Hopen Hopen' H1 H2 Hls Hfree.
  assert (Hig : ignored_line line = true).
  { unfold ignored_line. cbv zeta.
    pose proof (sscanf_netdev_colon_free (c_str line) Hfree) as Hne.
    destruct (Z.eqb_spec (assigned (sscanf_netdev (c_str line))) 3);
      [contradiction|reflexivity]. }
  rewrite (GetNetworkStats_totals h _ rx0 tx0 Hopen).
  rewrite (GetNetworkStats_totals h' _ rx0' tx0' Hopen').
  rewrite (cumulative_totals_without_line header1 header2 before line after)
    by assumption.
  reflexivity.
Qed.

Lemma GetNetworkStats_name_field_too_long_witness :
  GetNetworkStats
    (MoreSamples.netdev
       [MoreSamples.eth0_line; MoreSamples.long_line; MoreSamples.wlan0_line]) 0 0
  = GetNetworkStats
      (MoreSamples.netdev [MoreSamples.eth0_line; MoreSamples.wlan0_line]) 0 0.
Proof.
  apply (GetNetworkStats_name_field_too_long
           (MoreSamples.netdev
              [MoreSamples.eth0_line; MoreSamples.long_line; MoreSamples.wlan0_line])
           (MoreSamples.netdev [MoreSamples.eth0_line; MoreSamples.wlan0_line])
           MoreSamples.header1 MoreSamples.header2
           [MoreSamples.eth0_line] [MoreSamples.wlan0_line]
           MoreSamples.long_line 0 0 0 0).
  - reflexivity.
  - reflexivity.
  - reflexivity.
  - reflexivity.
  - repeat constructor.
  - reflexivity.
Defined.

End NetworkIgnored.
